(** * Virtual pet dashboard: the decay engine, classifier, catch-up replay,
      action handlers and scheduler of [script.js], embedded in Rocq.

    The program keeps one JavaScript object, [state], with four numeric
    vitals and some lifecycle fields.  Numbers are embedded as [Z]: the
    defaults and every delta of the program are integers, so a run that
    starts from [defaultState] never leaves the integers.  Timestamps
    ([Date.now()]) are [Z] milliseconds.  Each call of [Date.now()] is an
    explicit argument of the function that makes it. *)

From Stdlib Require Import ZArith Lia Bool String List.
Import ListNotations.

Local Open Scope string_scope.
Local Open Scope Z_scope.

(** ** State *)

Record StatVector : Type := mkStat {
  health : Z;
  hunger : Z;
  energy : Z;
  clean : Z;
  mood : string;
  createdAt : Z;
  lastTickAt : Z;
  isSleeping : bool;
  paused : bool
}.

(** Field updates of an object: [{ ...s, f: v }] and [s.f = v]. *)

Definition set_health (v : Z) (s : StatVector) : StatVector :=
  mkStat v (hunger s) (energy s) (clean s) (mood s) (createdAt s)
         (lastTickAt s) (isSleeping s) (paused s).

Definition set_hunger (v : Z) (s : StatVector) : StatVector :=
  mkStat (health s) v (energy s) (clean s) (mood s) (createdAt s)
         (lastTickAt s) (isSleeping s) (paused s).

Definition set_energy (v : Z) (s : StatVector) : StatVector :=
  mkStat (health s) (hunger s) v (clean s) (mood s) (createdAt s)
         (lastTickAt s) (isSleeping s) (paused s).

Definition set_clean (v : Z) (s : StatVector) : StatVector :=
  mkStat (health s) (hunger s) (energy s) v (mood s) (createdAt s)
         (lastTickAt s) (isSleeping s) (paused s).

Definition set_mood (v : string) (s : StatVector) : StatVector :=
  mkStat (health s) (hunger s) (energy s) (clean s) v (createdAt s)
         (lastTickAt s) (isSleeping s) (paused s).

Definition set_lastTickAt (v : Z) (s : StatVector) : StatVector :=
  mkStat (health s) (hunger s) (energy s) (clean s) (mood s) (createdAt s)
         v (isSleeping s) (paused s).

Definition set_isSleeping (v : bool) (s : StatVector) : StatVector :=
  mkStat (health s) (hunger s) (energy s) (clean s) (mood s) (createdAt s)
         (lastTickAt s) v (paused s).

Definition set_paused (v : bool) (s : StatVector) : StatVector :=
  mkStat (health s) (hunger s) (energy s) (clean s) (mood s) (createdAt s)
         (lastTickAt s) (isSleeping s) v.

(** [defaultState()] reads the clock twice, once per timestamp field. *)
Definition defaultState (t_created t_last : Z) : StatVector :=
  {| health := 100;
     hunger := 0;
     energy := 80;
     clean := 80;
     mood := "Happy";
     createdAt := t_created;
     lastTickAt := t_last;
     isSleeping := false;
     paused := false |}.

(** ** Helpers *)

(** [clamp(n, min, max) = Math.max(min, Math.min(max, n))]. *)
Definition clamp (n lo hi : Z) : Z := Z.max lo (Z.min hi n).

(** ** Mood and condition *)

Definition computeMoodAndCondition (s : StatVector) : string * string :=
  if isSleeping s then ("Sleepy", "Sleeping...")
  else if health s <=? 25 then ("Sick", "Needs care!")
  else if 75 <=? hunger s then ("Hungry", "Feed me!")
  else if energy s <=? 25 then ("Sleepy", "Very tired")
  else if clean s <=? 25 then ("Sick", "Dirty & cranky")
  else if (70 <=? health s) && (hunger s <=? 40) && (40 <=? energy s)
       then ("Happy", "Great")
  else ("Okay", "Doing fine").

(** ** Time-based changes *)

(** The object returned by the sleeping branch of [applyNaturalDecay]. *)
Definition sleeping_decay (s : StatVector) : StatVector :=
  set_health (clamp (health s + 1) 0 100)
    (set_clean (clamp (clean s - 1) 0 100)
      (set_energy (clamp (energy s + 6) 0 100)
        (set_hunger (clamp (hunger s + 2) 0 100) s))).

(** The object literal bound to [next] in the awake branch. *)
Definition awake_next (s : StatVector) : StatVector :=
  set_clean (clamp (clean s - 1) 0 100)
    (set_energy (clamp (energy s - 2) 0 100)
      (set_hunger (clamp (hunger s + 3) 0 100) s)).

(** The three conditional statements that follow, each assigning
    [next.health]. *)
Definition hunger_penalty (next : StatVector) : StatVector :=
  if 80 <=? hunger next then set_health (clamp (health next - 3) 0 100) next
  else if 60 <=? hunger next then set_health (clamp (health next - 1) 0 100) next
  else next.

Definition energy_penalty (next : StatVector) : StatVector :=
  if energy next <=? 10 then set_health (clamp (health next - 2) 0 100) next
  else next.

Definition clean_penalty (next : StatVector) : StatVector :=
  if clean next <=? 10 then set_health (clamp (health next - 2) 0 100) next
  else next.

Definition applyNaturalDecay (s : StatVector) : StatVector :=
  if isSleeping s then sleeping_decay s
  else clean_penalty (energy_penalty (hunger_penalty (awake_next s))).

(** The body of a [for (let i = 0; i < n; i++) fixed = f(fixed)] loop that
    runs [n] times. *)
Fixpoint repeat_decay (n : nat) (fixed : StatVector) : StatVector :=
  match n with
  | O => fixed
  | S k => repeat_decay k (applyNaturalDecay fixed)
  end.

(** ** Persistence *)

(** What [localStorage.getItem(STORAGE_KEY)] does: it raises when storage is
    denied, and otherwise yields the stored string or [null]. *)
Inductive Storage : Type :=
| StorageDenied
| StorageItem (raw : option string).

(** The fields [loadState] reads from a parsed object.  A field is [None]
    when the object does not have it.  Each field that is present is taken at
    the type [saveState] writes it with; [snap_lastTickAt] is also [None] for
    a stored [null], which [??] treats like a missing field. *)
Record Snapshot : Type := mkSnap {
  snap_health : option Z;
  snap_hunger : option Z;
  snap_energy : option Z;
  snap_clean : option Z;
  snap_mood : option string;
  snap_createdAt : option Z;
  snap_lastTickAt : option Z;
  snap_isSleeping : option bool;
  snap_paused : option bool
}.

(** The value [JSON.parse] returns.  An array has none of the fields above. *)
Inductive Json : Type :=
| JNull
| JBool (b : bool)
| JNum (n : Z)
| JStr (s : string)
| JArray
| JObject (p : Snapshot).

Definition typeof (j : Json) : string :=
  match j with
  | JNull => "object"
  | JBool _ => "boolean"
  | JNum _ => "number"
  | JStr _ => "string"
  | JArray => "object"
  | JObject _ => "object"
  end.

Definition is_null (j : Json) : bool :=
  match j with JNull => true | _ => false end.

Definition empty_snapshot : Snapshot :=
  mkSnap None None None None None None None None None.

(** The own fields of a parsed value that passed the shape test. *)
Definition fields_of (j : Json) : Snapshot :=
  match j with
  | JObject p => p
  | _ => empty_snapshot
  end.

(** [a ?? b]. *)
Definition nullish {A : Type} (a : option A) (b : A) : A :=
  match a with Some v => v | None => b end.

(** [{ ...d, ...p }]: every field of [p] that is present overrides [d]. *)
Definition merge (d : StatVector) (p : Snapshot) : StatVector :=
  {| health := nullish (snap_health p) (health d);
     hunger := nullish (snap_hunger p) (hunger d);
     energy := nullish (snap_energy p) (energy d);
     clean := nullish (snap_clean p) (clean d);
     mood := nullish (snap_mood p) (mood d);
     createdAt := nullish (snap_createdAt p) (createdAt d);
     lastTickAt := nullish (snap_lastTickAt p) (lastTickAt d);
     isSleeping := nullish (snap_isSleeping p) (isSleeping d);
     paused := nullish (snap_paused p) (paused d) |}.

(** The snapshot [JSON.stringify(state)] stores: every field present. *)
Definition snapshot_of (s : StatVector) : Snapshot :=
  {| snap_health := Some (health s);
     snap_hunger := Some (hunger s);
     snap_energy := Some (energy s);
     snap_clean := Some (clean s);
     snap_mood := Some (mood s);
     snap_createdAt := Some (createdAt s);
     snap_lastTickAt := Some (lastTickAt s);
     snap_isSleeping := Some (isSleeping s);
     snap_paused := Some (paused s) |}.

Definition with_lastTickAt (t : option Z) (p : Snapshot) : Snapshot :=
  mkSnap (snap_health p) (snap_hunger p) (snap_energy p) (snap_clean p)
         (snap_mood p) (snap_createdAt p) t (snap_isSleeping p)
         (snap_paused p).

(** [Math.min(60, Math.floor((now - last) / 60000))], with
    [last = parsed.lastTickAt ?? now]. *)
Definition elapsed_minutes (p : Snapshot) (now : Z) : Z :=
  let last := nullish (snap_lastTickAt p) now in
  Z.min 60 ((now - last) / 60000).

(** The values that are structured: objects and arrays. *)
Definition structured (j : Json) : bool :=
  match j with
  | JObject _ | JArray => true
  | _ => false
  end.

(** The catch-up replay, the second half of [loadState]: [now] is the clock
    reading of [loadState] itself, [tc] and [tl] are the two readings of the
    [defaultState()] call in the merge.  The loop runs while [i < minutes],
    so not at all for [minutes <= 0]. *)
Definition replay (p : Snapshot) (now tc tl : Z) : StatVector :=
  let minutes := elapsed_minutes p now in
  let fixed := merge (defaultState tc tl) p in
  let fixed := repeat_decay (Z.to_nat minutes) fixed in
  set_lastTickAt now fixed.

(** [loadState()]: [None] is the [null] it returns, also from the [catch]
    block.  [JSON_parse raw = None] stands for [JSON.parse] raising. *)
Definition loadState (JSON_parse : string -> option Json) (store : Storage)
    (now tc tl : Z) : option StatVector :=
  match store with
  | StorageDenied => None
  | StorageItem None => None
  | StorageItem (Some raw) =>
      if (raw =? "")%string then None
      else match JSON_parse raw with
           | None => None
           | Some parsed =>
               if negb (typeof parsed =? "object")%string || is_null parsed
               then None
               else Some (replay (fields_of parsed) now tc tl)
           end
  end.

(** [let state = loadState() ?? defaultState()]: the default is built, with
    its own two clock readings, only when [loadState] returned [null]. *)
Definition initialState (JSON_parse : string -> option Json) (store : Storage)
    (now tc tl tc' tl' : Z) : StatVector :=
  match loadState JSON_parse store now tc tl with
  | Some s => s
  | None => defaultState tc' tl'
  end.

(** ** The page: live state and the message line *)

(** The texts [setMessage] is called with, one constructor per call site. *)
Inductive Message : Type :=
| MsgRested
| MsgNeedReset
| MsgFed
| MsgTooTiredToPlay
| MsgPlayed
| MsgAsleep
| MsgAwake
| MsgTooTiredToHeal
| MsgHealed
| MsgPaused
| MsgResumed
| MsgFreshStart.

(** The global [state] and the text of [petMessageEl]; [None] is the text the
    page starts with.  The bars, labels and animation classes are written
    from [state] and never read back; [saveState] stores a serialized copy of
    [state] and leaves [state] alone. *)
Record Page : Type := mkPage {
  state : StatVector;
  petMessage : option Message
}.

Definition setMessage (m : Message) (w : Page) : Page :=
  mkPage (state w) (Some m).

(** [render()]: the one effect on [state] is [state.mood = mood]. *)
Definition render (w : Page) : Page :=
  mkPage (set_mood (fst (computeMoodAndCondition (state w))) (state w))
         (petMessage w).

(** The callback [startTicking] hands to [setInterval]; [now] is its clock
    reading. *)
Definition tick (now : Z) (w : Page) : Page :=
  if paused (state w) then w
  else
    let w := mkPage (applyNaturalDecay (state w)) (petMessage w) in
    let w := mkPage (set_lastTickAt now (state w)) (petMessage w) in
    let w :=
      if isSleeping (state w) && (98 <=? energy (state w))
      then setMessage MsgRested
             (mkPage (set_isSleeping false (state w)) (petMessage w))
      else w in
    let w :=
      if health (state w) <=? 0
      then setMessage MsgNeedReset
             (mkPage (set_isSleeping false
                        (set_paused true (set_health 0 (state w))))
                     (petMessage w))
      else w in
    render w.

(** The page after the boot sequence: the initial state, then [render()]. *)
Definition boot (JSON_parse : string -> option Json) (store : Storage)
    (now tc tl tc' tl' : Z) : Page :=
  render (mkPage (initialState JSON_parse store now tc tl tc' tl') None).

(** ** Actions *)

Definition feed (w : Page) : Page :=
  if health (state w) <=? 0 then w
  else
    let s := state w in
    let s := set_hunger (clamp (hunger s - 25) 0 100) s in
    let s := set_clean (clamp (clean s - 5) 0 100) s in
    let s := set_energy (clamp (energy s + 5) 0 100) s in
    render (setMessage MsgFed (mkPage s (petMessage w))).

Definition play (w : Page) : Page :=
  if health (state w) <=? 0 then w
  else if energy (state w) <=? 10 then setMessage MsgTooTiredToPlay w
  else
    let s := state w in
    let s := set_energy (clamp (energy s - 18) 0 100) s in
    let s := set_hunger (clamp (hunger s + 8) 0 100) s in
    let s := set_clean (clamp (clean s - 10) 0 100) s in
    let s := set_health (clamp (health s + 3) 0 100) s in
    render (setMessage MsgPlayed (mkPage s (petMessage w))).

Definition toggleSleep (w : Page) : Page :=
  if health (state w) <=? 0 then w
  else
    let s := set_isSleeping (negb (isSleeping (state w))) (state w) in
    let m := if isSleeping s then MsgAsleep else MsgAwake in
    render (setMessage m (mkPage s (petMessage w))).

Definition heal (w : Page) : Page :=
  if health (state w) <=? 0 then w
  else if energy (state w) <=? 8 then setMessage MsgTooTiredToHeal w
  else
    let s := state w in
    let s := set_health (clamp (health s + 18) 0 100) s in
    let s := set_clean (clamp (clean s + 12) 0 100) s in
    let s := set_energy (clamp (energy s - 10) 0 100) s in
    render (setMessage MsgHealed (mkPage s (petMessage w))).

Definition togglePause (w : Page) : Page :=
  let s := set_paused (negb (paused (state w))) (state w) in
  let m := if paused s then MsgPaused else MsgResumed in
  render (setMessage m (mkPage s (petMessage w))).

(** [resetAll()]; [tc] and [tl] are the clock readings of [defaultState()]. *)
Definition resetAll (tc tl : Z) (w : Page) : Page :=
  render (setMessage MsgFreshStart (mkPage (defaultState tc tl) (petMessage w))).

(** ** Runs of the page *)

(** The units of work the event loop runs one at a time: a timer callback or
    a button click. *)
Inductive Event : Type :=
| Tick (now : Z)
| Feed
| Play
| ToggleSleep
| Heal
| TogglePause
| Reset (tc tl : Z).

Definition step (e : Event) (w : Page) : Page :=
  match e with
  | Tick now => tick now w
  | Feed => feed w
  | Play => play w
  | ToggleSleep => toggleSleep w
  | Heal => heal w
  | TogglePause => togglePause w
  | Reset tc tl => resetAll tc tl w
  end.

Fixpoint run (evs : list Event) (w : Page) : Page :=
  match evs with
  | [] => w
  | e :: rest => run rest (step e w)
  end.

Definition is_reset (e : Event) : bool :=
  match e with Reset _ _ => true | _ => false end.

(** ** The rules as the design document words them *)

(** One decay step computed the way the design document puts it: the deltas
    first, then the health penalties added up from the values after the
    deltas, and one clamp of every vital at the end. *)
Definition spec_penalty (hunger' energy' clean' : Z) : Z :=
  (if 80 <=? hunger' then 3 else if 60 <=? hunger' then 1 else 0)
  + (if energy' <=? 10 then 2 else 0)
  + (if clean' <=? 10 then 2 else 0).

Definition spec_advance (s : StatVector) : StatVector :=
  if isSleeping s then
    {| health := clamp (health s + 1) 0 100;
       hunger := clamp (hunger s + 2) 0 100;
       energy := clamp (energy s + 6) 0 100;
       clean := clamp (clean s - 1) 0 100;
       mood := mood s; createdAt := createdAt s; lastTickAt := lastTickAt s;
       isSleeping := isSleeping s; paused := paused s |}
  else
    let hunger' := hunger s + 3 in
    let energy' := energy s - 2 in
    let clean' := clean s - 1 in
    {| health := clamp (health s - spec_penalty hunger' energy' clean') 0 100;
       hunger := clamp hunger' 0 100;
       energy := clamp energy' 0 100;
       clean := clamp clean' 0 100;
       mood := mood s; createdAt := createdAt s; lastTickAt := lastTickAt s;
       isSleeping := isSleeping s; paused := paused s |}.

(** The range every vital is meant to stay in. *)
Definition in_range (v : Z) : Prop := 0 <= v <= 100.

Definition vitals_in_range (s : StatVector) : Prop :=
  in_range (health s) /\ in_range (hunger s) /\ in_range (energy s)
  /\ in_range (clean s).

(** A snapshot whose vitals, where present, are in range. *)
Definition snapshot_in_range (p : Snapshot) : Prop :=
  (forall v, snap_health p = Some v -> in_range v)
  /\ (forall v, snap_hunger p = Some v -> in_range v)
  /\ (forall v, snap_energy p = Some v -> in_range v)
  /\ (forall v, snap_clean p = Some v -> in_range v).

(** What the terminal transition establishes and every later step keeps. *)
Definition inert (s : StatVector) : Prop :=
  health s = 0 /\ isSleeping s = false.

(** The classifier as a priority list: the first rule whose test holds gives
    the labels, and the last pair is the fallback. *)
Definition classify_rules : list ((StatVector -> bool) * (string * string)) :=
  [ (isSleeping, ("Sleepy", "Sleeping..."));
    (fun s => health s <=? 25, ("Sick", "Needs care!"));
    (fun s => 75 <=? hunger s, ("Hungry", "Feed me!"));
    (fun s => energy s <=? 25, ("Sleepy", "Very tired"));
    (fun s => clean s <=? 25, ("Sick", "Dirty & cranky"));
    (fun s => (70 <=? health s) && (hunger s <=? 40) && (40 <=? energy s),
     ("Happy", "Great")) ].

Fixpoint first_match (rules : list ((StatVector -> bool) * (string * string)))
    (fallback : string * string) (s : StatVector) : string * string :=
  match rules with
  | [] => fallback
  | (test, labels) :: rest =>
      if test s then labels else first_match rest fallback s
  end.

Definition spec_classify (s : StatVector) : string * string :=
  first_match classify_rules ("Okay", "Doing fine") s.

(** ** Rendering details and saving *)

(** The age line of [render()], [now] being its clock reading:
    [Math.max(0, Math.floor((Date.now() - state.createdAt) / 60000))]. *)
Definition ageMinutes (now : Z) (s : StatVector) : Z :=
  Z.max 0 ((now - createdAt s) / 60000).

(** [petEl.classList]: class names in order, none twice.  [remove] drops the
    names it is given; [add] appends a name that is not there yet. *)
Definition classList_remove (names classes : list string) : list string :=
  filter (fun c => negb (existsb (String.eqb c) names)) classes.

Definition classList_add (name : string) (classes : list string)
  : list string :=
  if existsb (String.eqb name) classes then classes else classes ++ [name].

Definition mood_classes : list string := ["happy"; "hungry"; "sleepy"; "sick"].

Definition updatePetLook (mood : string) (classes : list string)
  : list string :=
  let classes := classList_remove mood_classes classes in
  if (mood =? "Happy")%string then classList_add "happy" classes
  else if (mood =? "Hungry")%string then classList_add "hungry" classes
  else if (mood =? "Sleepy")%string then classList_add "sleepy" classes
  else if (mood =? "Sick")%string then classList_add "sick" classes
  else classes.

(** [saveState()].  [setItem] raises when storage is denied or the write does
    not fit ([fits = false]); the [catch] block logs a warning and the store
    is as it was. *)
Definition saveState (JSON_stringify : StatVector -> string) (fits : bool)
    (s : StatVector) (store : Storage) : Storage :=
  match store with
  | StorageDenied => StorageDenied
  | StorageItem old =>
      if fits then StorageItem (Some (JSON_stringify s)) else StorageItem old
  end.

Definition with_paused (b : option bool) (p : Snapshot) : Snapshot :=
  mkSnap (snap_health p) (snap_hunger p) (snap_energy p) (snap_clean p)
         (snap_mood p) (snap_createdAt p) (snap_lastTickAt p)
         (snap_isSleeping p) b.

(** A page whose mood label is the classification of its vitals, as
    [render()] leaves it. *)
Definition rendered (w : Page) : Prop :=
  mood (state w) = fst (computeMoodAndCondition (state w)).

Definition is_tick (e : Event) : bool :=
  match e with Tick _ => true | _ => false end.

(** A serializer and a parser for one state, for the sample inputs. *)
Definition sample_stringify (s : StatVector) : string := "{pet}".

Definition parse_as (s : StatVector) (raw : string) : option Json :=
  if (raw =? "{pet}")%string then Some (JObject (snapshot_of s))
  else if (raw =? "[]")%string then Some JArray
  else None.

Definition bare_classes : list string := ["pet"; "sick"; "anim-shake"].

(** ** Sample inputs *)

(** The fresh vitals of [defaultState], awake, with the other fields free. *)
Definition fresh_awake (m : string) (ca lt : Z) (p : bool) : StatVector :=
  mkStat 100 0 80 80 m ca lt false p.

(** A state as a hand-edited snapshot can load it: awake, no penalty due,
    health above the range. *)
Definition overhealthy : StatVector :=
  mkStat 150 0 80 80 "Happy" 0 0 false false.

Definition starving : StatVector :=
  mkStat 50 90 5 5 "Okay" 0 0 false false.

Definition nearly_dead : StatVector :=
  mkStat 2 98 3 4 "Sick" 0 0 false false.

Definition dead_page : Page :=
  mkPage (mkStat 0 40 5 30 "Sick" 0 0 false true) None.

Definition napping : StatVector :=
  mkStat 90 10 70 60 "Happy" 1000 5000 true false.

Definition after_the_terminal_tick : list Event :=
  [TogglePause; Tick 20; Heal; Feed; ToggleSleep; TogglePause; Tick 30; Play].

(** A stored object whose health is outside the range. *)
Definition tampered : Snapshot :=
  mkSnap (Some 500) None None None None None None None None.

(** A parser that knows two stored strings. *)
Definition sample_parse (raw : string) : option Json :=
  if (raw =? "null")%string then Some JNull
  else if (raw =? "42")%string then Some (JNum 42)
  else None.

(** * Properties *)

(** ** Clamping *)

Lemma clamp_in_range (n : Z) : in_range (clamp n 0 100).
Proof. unfold in_range, clamp. lia. Qed.

Lemma leb_clamp_r (k n : Z) :
  0 < k <= 100 -> (k <=? clamp n 0 100) = (k <=? n).
Proof.
  intros Hk. unfold clamp.
  destruct (Z.leb_spec k n); [apply Z.leb_le | apply Z.leb_gt]; lia.
Qed.

Lemma leb_clamp_l (k n : Z) :
  0 <= k < 100 -> (clamp n 0 100 <=? k) = (n <=? k).
Proof.
  intros Hk. unfold clamp.
  destruct (Z.leb_spec n k); [apply Z.leb_le | apply Z.leb_gt]; lia.
Qed.

(** ** Proof steps used throughout *)

Ltac leb_facts :=
  repeat match goal with
         | H : (_ <=? _) = true |- _ => apply Z.leb_le in H
         | H : (_ <=? _) = false |- _ => apply Z.leb_gt in H
         end.

Ltac case_leb :=
  repeat match goal with
         | |- context [?a <=? ?b] => destruct (Z.leb_spec a b)
         end.

Ltac split_conj :=
  repeat match goal with |- _ /\ _ => split end.

Ltac solve_range :=
  unfold vitals_in_range in *; cbn -[clamp] in *;
  split_conj; first [apply clamp_in_range | tauto | unfold in_range; lia].

(** ** The decay step *)

(** Each penalty stage keeps an in-range health in range and never raises
    it. *)
Lemma hunger_penalty_health (x : StatVector) :
  in_range (health x) ->
  in_range (health (hunger_penalty x))
  /\ health (hunger_penalty x) <= health x.
Proof.
  unfold hunger_penalty, in_range. intros H.
  case_leb; cbn -[clamp]; unfold clamp; lia.
Qed.

Lemma energy_penalty_health (x : StatVector) :
  in_range (health x) ->
  in_range (health (energy_penalty x))
  /\ health (energy_penalty x) <= health x.
Proof.
  unfold energy_penalty, in_range. intros H.
  case_leb; cbn -[clamp]; unfold clamp; lia.
Qed.

Lemma clean_penalty_health (x : StatVector) :
  in_range (health x) ->
  in_range (health (clean_penalty x))
  /\ health (clean_penalty x) <= health x.
Proof.
  unfold clean_penalty, in_range. intros H.
  case_leb; cbn -[clamp]; unfold clamp; lia.
Qed.

Lemma awake_penalties_health (x : StatVector) :
  in_range (health x) ->
  in_range (health (clean_penalty (energy_penalty (hunger_penalty x))))
  /\ health (clean_penalty (energy_penalty (hunger_penalty x))) <= health x.
Proof.
  intros H.
  destruct (hunger_penalty_health x H) as [H1 L1].
  destruct (energy_penalty_health _ H1) as [H2 L2].
  destruct (clean_penalty_health _ H2) as [H3 L3].
  split; [assumption | lia].
Qed.

Lemma applyNaturalDecay_isSleeping (s : StatVector) :
  isSleeping (applyNaturalDecay s) = isSleeping s.
Proof.
  unfold applyNaturalDecay, clean_penalty, energy_penalty, hunger_penalty.
  destruct (isSleeping s) eqn:Hs; cbn; [assumption|].
  case_leb; cbn; assumption.
Qed.

(** C1, as amended.  For every state whose health is in [0,100], one decay
    step applies exactly the deltas of the design document: asleep,
    hunger +2, energy +6, clean -1, health +1 and no penalty; awake,
    hunger +3, energy -2, clean -1, then the health penalties read off the
    values after the deltas (3 for hunger >= 80, else 1 for hunger >= 60;
    2 more for energy <= 10; 2 more for clean <= 10), all of which stack;
    every vital clamped to [0,100].  Hunger, energy and cleanliness of the
    input are arbitrary.  The code clamps health where it assigns it, once
    per penalty, and awake with no penalty due it does not assign it. *)
Theorem applyNaturalDecay_spec (s : StatVector) :
  in_range (health s) -> applyNaturalDecay s = spec_advance s.
Proof.
  intros Hh. destruct s as [h hu e c m ca lt sl p].
  unfold in_range in Hh. cbn in Hh.
  unfold applyNaturalDecay, spec_advance. cbn [isSleeping].
  destruct sl; [reflexivity|].
  unfold hunger_penalty, awake_next, spec_penalty.
  cbn -[clamp Z.leb Z.add Z.sub clean_penalty energy_penalty].
  rewrite !leb_clamp_r by lia.
  destruct (80 <=? hu + 3) eqn:E80; [|destruct (60 <=? hu + 3) eqn:E60];
    unfold energy_penalty; cbn -[clamp Z.leb Z.add Z.sub clean_penalty];
    rewrite leb_clamp_l by lia; destruct (e - 2 <=? 10) eqn:Ee;
    unfold clean_penalty; cbn -[clamp Z.leb Z.add Z.sub];
    rewrite leb_clamp_l by lia; destruct (c - 1 <=? 10) eqn:Ec;
    leb_facts; unfold set_health, set_clean, set_energy, set_hunger;
    cbn -[clamp Z.leb Z.add Z.sub]; f_equal; unfold clamp; lia.
Qed.

Lemma applyNaturalDecay_spec_witness :
  in_range (health starving)
  /\ applyNaturalDecay starving = spec_advance starving.
Proof.
  assert (H : in_range (health starving)) by (unfold in_range; cbn; lia).
  split; [exact H | apply (applyNaturalDecay_spec starving H)].
Defined.

(** C1 as stated, for every state, fails: awake with no penalty due, a
    health of 150 comes out as 150, outside [0,100], where the design
    document's step gives 100. *)
Lemma applyNaturalDecay_spec_counterexample :
  health (applyNaturalDecay overhealthy) = 150
  /\ ~ in_range (health (applyNaturalDecay overhealthy))
  /\ health (spec_advance overhealthy) = 100
  /\ applyNaturalDecay overhealthy <> spec_advance overhealthy.
Proof.
  split; [reflexivity|]. split; [unfold in_range; cbn; lia|].
  split; [reflexivity|]. intros H.
  apply (f_equal health) in H. cbn in H. discriminate.
Qed.

(** C10. The decay step writes the four vitals only: the sleep and pause
    flags, both timestamps and the mood label come out as they went in. *)
Theorem applyNaturalDecay_frame (s : StatVector) :
  isSleeping (applyNaturalDecay s) = isSleeping s
  /\ paused (applyNaturalDecay s) = paused s
  /\ createdAt (applyNaturalDecay s) = createdAt s
  /\ lastTickAt (applyNaturalDecay s) = lastTickAt s
  /\ mood (applyNaturalDecay s) = mood s.
Proof.
  unfold applyNaturalDecay, clean_penalty, energy_penalty, hunger_penalty.
  destruct (isSleeping s) eqn:Hs; cbn.
  - rewrite Hs. repeat split.
  - case_leb; cbn; rewrite ?Hs; repeat split.
Qed.

(** Outside the data model the hypothesis on health matters: awake and with
    no penalty due, the step leaves an out-of-range health as it is. *)
Example applyNaturalDecay_health_untouched :
  health (applyNaturalDecay (mkStat 150 0 80 80 "Happy" 0 0 false false)) = 150.
Proof. reflexivity. Qed.

(** The three other vitals are clamped whatever the input. *)
Lemma applyNaturalDecay_others (s : StatVector) :
  hunger (applyNaturalDecay s)
    = clamp (hunger s + (if isSleeping s then 2 else 3)) 0 100
  /\ energy (applyNaturalDecay s)
    = clamp (energy s + (if isSleeping s then 6 else -2)) 0 100
  /\ clean (applyNaturalDecay s) = clamp (clean s - 1) 0 100.
Proof.
  unfold applyNaturalDecay, clean_penalty, energy_penalty, hunger_penalty.
  destruct (isSleeping s); cbn; [repeat split|].
  case_leb; cbn; repeat split.
Qed.

(** ** The classifier *)

(** C3. The labels are a function of the state alone, found by strict
    priority, first match winning: asleep; health <= 25; hunger >= 75;
    energy <= 25; clean <= 25; health >= 70 with hunger <= 40 and
    energy >= 40; else the fallback.  A state with health 20 and hunger 90
    that is awake is reported sick, whatever its other fields. *)
Theorem computeMoodAndCondition_priority :
  (forall s, computeMoodAndCondition s = spec_classify s)
  /\ (forall e c m ca lt p,
        computeMoodAndCondition (mkStat 20 90 e c m ca lt false p)
        = ("Sick", "Needs care!")).
Proof.
  split.
  - intros s. unfold computeMoodAndCondition, spec_classify, classify_rules.
    cbn [first_match].
    destruct (isSleeping s); [reflexivity|].
    case_leb; reflexivity.
  - intros. reflexivity.
Qed.

(** Each rule on its own: what the state must satisfy for a rule to be the
    one that fires. *)
Lemma computeMoodAndCondition_cases (s : StatVector) :
  (isSleeping s = true ->
     computeMoodAndCondition s = ("Sleepy", "Sleeping..."))
  /\ (isSleeping s = false -> health s <= 25 ->
     computeMoodAndCondition s = ("Sick", "Needs care!"))
  /\ (isSleeping s = false -> 25 < health s -> 75 <= hunger s ->
     computeMoodAndCondition s = ("Hungry", "Feed me!"))
  /\ (isSleeping s = false -> 25 < health s -> hunger s < 75 ->
      energy s <= 25 ->
     computeMoodAndCondition s = ("Sleepy", "Very tired"))
  /\ (isSleeping s = false -> 25 < health s -> hunger s < 75 ->
      25 < energy s -> clean s <= 25 ->
     computeMoodAndCondition s = ("Sick", "Dirty & cranky"))
  /\ (isSleeping s = false -> 25 < health s -> hunger s < 75 ->
      25 < energy s -> 25 < clean s ->
      70 <= health s -> hunger s <= 40 -> 40 <= energy s ->
     computeMoodAndCondition s = ("Happy", "Great"))
  /\ (isSleeping s = false -> 25 < health s -> hunger s < 75 ->
      25 < energy s -> 25 < clean s ->
      ~ (70 <= health s /\ hunger s <= 40 /\ 40 <= energy s) ->
     computeMoodAndCondition s = ("Okay", "Doing fine")).
Proof.
  unfold computeMoodAndCondition.
  repeat split; intros; destruct (isSleeping s); try discriminate;
    case_leb; cbn; try reflexivity; lia.
Qed.

(** ** Twenty-seven steps from the fresh vitals *)

(** While the pet is awake and hunger has room, a step adds exactly 3. *)
Lemma repeat_decay_awake_hunger (k : nat) (s : StatVector) :
  isSleeping s = false -> 0 <= hunger s -> hunger s + 3 * Z.of_nat k <= 100 ->
  isSleeping (repeat_decay k s) = false
  /\ hunger (repeat_decay k s) = hunger s + 3 * Z.of_nat k.
Proof.
  revert s. induction k as [|k IH]; intros s Hs H0 H1.
  - cbn. split; [assumption | lia].
  - cbn [repeat_decay].
    pose proof (applyNaturalDecay_isSleeping s) as Hsl.
    destruct (applyNaturalDecay_others s) as [Hhu _].
    rewrite Hs in Hhu.
    assert (Hh : hunger (applyNaturalDecay s) = hunger s + 3)
      by (rewrite Hhu; unfold clamp; lia).
    destruct (IH (applyNaturalDecay s)) as [IH1 IH2];
      [congruence | lia | lia |].
    split; [assumption | lia].
Qed.

(** C9. From the awake state with hunger 0, energy 80, clean 80 and
    health 100, twenty-seven decay steps bring hunger to exactly 81; the
    [hunger >= 80] test of the step is false in each of the first 26 steps
    and true in the 27th, which takes 3 off health. *)
Theorem hunger_crosses_80_on_step_27 (m : string) (ca lt : Z) (p : bool) :
  hunger (repeat_decay 27 (fresh_awake m ca lt p)) = 81
  /\ (forall k, (k < 26)%nat ->
        isSleeping (repeat_decay k (fresh_awake m ca lt p)) = false
        /\ hunger (awake_next (repeat_decay k (fresh_awake m ca lt p))) < 80)
  /\ isSleeping (repeat_decay 26 (fresh_awake m ca lt p)) = false
  /\ 80 <= hunger (awake_next (repeat_decay 26 (fresh_awake m ca lt p)))
  /\ health (repeat_decay 26 (fresh_awake m ca lt p)) = 93
  /\ health (repeat_decay 27 (fresh_awake m ca lt p)) = 93 - 3.
Proof.
  split; [vm_compute; reflexivity|]. split.
  - intros k Hk.
    destruct (repeat_decay_awake_hunger k (fresh_awake m ca lt p))
      as [Hs Hh];
      [reflexivity | unfold fresh_awake; cbn [hunger]; lia ..|].
    split; [assumption|].
    unfold awake_next, set_clean, set_energy, set_hunger. cbn [hunger].
    rewrite Hh. cbn [hunger fresh_awake]. unfold clamp. lia.
  - split; [vm_compute; reflexivity|].
    split; [vm_compute; discriminate|].
    split; vm_compute; reflexivity.
Qed.

(** ** The range invariant *)

Lemma applyNaturalDecay_in_range (s : StatVector) :
  in_range (health s) -> vitals_in_range (applyNaturalDecay s).
Proof.
  intros Hh. destruct (applyNaturalDecay_others s) as (Hu & He & Hc).
  unfold vitals_in_range. rewrite Hu, He, Hc.
  split; [|split_conj; apply clamp_in_range].
  unfold applyNaturalDecay. destruct (isSleeping s).
  - apply clamp_in_range.
  - apply awake_penalties_health. exact Hh.
Qed.

Lemma repeat_decay_in_range (n : nat) (s : StatVector) :
  vitals_in_range s -> vitals_in_range (repeat_decay n s).
Proof.
  revert s. induction n as [|n IH]; intros s Hs; cbn; [assumption|].
  apply IH, applyNaturalDecay_in_range, Hs.
Qed.

Lemma render_vitals (w : Page) :
  vitals_in_range (state (render w)) <-> vitals_in_range (state w).
Proof. reflexivity. Qed.

Lemma feed_in_range (w : Page) :
  vitals_in_range (state w) -> vitals_in_range (state (feed w)).
Proof.
  intros H. unfold feed. destruct (health (state w) <=? 0); [assumption|].
  solve_range.
Qed.

Lemma play_in_range (w : Page) :
  vitals_in_range (state w) -> vitals_in_range (state (play w)).
Proof.
  intros H. unfold play. destruct (health (state w) <=? 0); [assumption|].
  destruct (energy (state w) <=? 10); [assumption|]. solve_range.
Qed.

Lemma heal_in_range (w : Page) :
  vitals_in_range (state w) -> vitals_in_range (state (heal w)).
Proof.
  intros H. unfold heal. destruct (health (state w) <=? 0); [assumption|].
  destruct (energy (state w) <=? 8); [assumption|]. solve_range.
Qed.

Lemma toggleSleep_in_range (w : Page) :
  vitals_in_range (state w) -> vitals_in_range (state (toggleSleep w)).
Proof.
  intros H. unfold toggleSleep. destruct (health (state w) <=? 0); assumption.
Qed.

Lemma togglePause_in_range (w : Page) :
  vitals_in_range (state w) -> vitals_in_range (state (togglePause w)).
Proof. intros H. exact H. Qed.

Lemma defaultState_in_range (tc tl : Z) : vitals_in_range (defaultState tc tl).
Proof. unfold vitals_in_range, in_range. cbn. lia. Qed.

Lemma resetAll_in_range (tc tl : Z) (w : Page) :
  vitals_in_range (state (resetAll tc tl w)).
Proof. apply (defaultState_in_range tc tl). Qed.

Lemma tick_in_range (now : Z) (w : Page) :
  vitals_in_range (state w) -> vitals_in_range (state (tick now w)).
Proof.
  intros H. unfold tick. destruct (paused (state w)); [assumption|].
  cbn [state petMessage].
  assert (Hd : vitals_in_range (applyNaturalDecay (state w)))
    by (apply applyNaturalDecay_in_range, H).
  set (d := applyNaturalDecay (state w)) in *.
  apply render_vitals.
  destruct (isSleeping (set_lastTickAt now d) && (98 <=? energy (set_lastTickAt now d)));
    cbn [state setMessage petMessage set_isSleeping set_lastTickAt health
         hunger energy clean isSleeping paused];
    destruct (health d <=? 0); solve_range.
Qed.

Lemma merge_in_range (p : Snapshot) (tc tl : Z) :
  snapshot_in_range p -> vitals_in_range (merge (defaultState tc tl) p).
Proof.
  intros (Hh & Hu & He & Hc).
  unfold vitals_in_range, merge. cbn.
  split_conj;
    match goal with
    | |- context [nullish ?o _] =>
        destruct o as [v|] eqn:E; cbn; [auto | unfold in_range; lia]
    end;
    match goal with H : forall v, _ = Some v -> _ |- _ => apply (H v); reflexivity end.
Qed.


Lemma snapshot_of_in_range (s : StatVector) :
  vitals_in_range s -> snapshot_in_range (snapshot_of s).
Proof.
  intros (Hh & Hu & He & Hc). unfold snapshot_in_range. cbn.
  split_conj; intros x E; injection E as <-; assumption.
Qed.



(** The invariant along any run of the page, resets included. *)
Lemma run_in_range (evs : list Event) (w : Page) :
  vitals_in_range (state w) -> vitals_in_range (state (run evs w)).
Proof.
  revert w. induction evs as [|e evs IH]; intros w H; cbn; [assumption|].
  apply IH. destruct e; cbn [step].
  - apply tick_in_range, H.
  - apply feed_in_range, H.
  - apply play_in_range, H.
  - apply toggleSleep_in_range, H.
  - apply heal_in_range, H.
  - apply togglePause_in_range, H.
  - apply resetAll_in_range.
Qed.

(** ** Guards of the actions *)

(** C8. An action whose guard fails changes nothing in the state and
    returns: feed, play, the sleep toggle and heal at health <= 0 return at
    once and leave the whole page as it was; play at energy <= 10 and heal at
    energy <= 8 write the message line only. *)
Theorem guarded_actions_are_noops (w : Page) :
  (health (state w) <= 0 ->
     feed w = w /\ play w = w /\ toggleSleep w = w /\ heal w = w)
  /\ (energy (state w) <= 10 -> state (play w) = state w)
  /\ (energy (state w) <= 8 -> state (heal w) = state w).
Proof.
  unfold feed, play, toggleSleep, heal.
  split; [|split]; intros H.
  - apply Z.leb_le in H. rewrite H. repeat split.
  - apply Z.leb_le in H. rewrite H.
    destruct (health (state w) <=? 0); reflexivity.
  - apply Z.leb_le in H. rewrite H.
    destruct (health (state w) <=? 0); reflexivity.
Qed.

Lemma guarded_actions_are_noops_witness :
  feed dead_page = dead_page
  /\ state (play dead_page) = state dead_page
  /\ state (heal dead_page) = state dead_page.
Proof.
  destruct (guarded_actions_are_noops dead_page) as (Hdead & Hplay & Hheal).
  split; [apply Hdead; cbn; lia|].
  split; [apply Hplay; cbn; lia | apply Hheal; cbn; lia].
Defined.

(** ** The terminal condition *)

(** Awake, health never goes up in a decay step. *)
Lemma applyNaturalDecay_awake_health (s : StatVector) :
  isSleeping s = false -> in_range (health s) ->
  health (applyNaturalDecay s) <= health s.
Proof.
  intros Hs Hh. unfold applyNaturalDecay. rewrite Hs.
  apply (awake_penalties_health (awake_next s)). exact Hh.
Qed.

Lemma tick_terminal (now : Z) (w : Page) :
  paused (state w) = false ->
  health (state (tick now w)) <= 0 ->
  health (state (tick now w)) = 0
  /\ paused (state (tick now w)) = true
  /\ isSleeping (state (tick now w)) = false.
Proof.
  intros Hp. unfold tick. rewrite Hp. cbn [state petMessage].
  set (d := set_lastTickAt now (applyNaturalDecay (state w))).
  destruct (isSleeping d && (98 <=? energy d));
    cbn [state setMessage petMessage set_isSleeping health];
    destruct (health d <=? 0) eqn:Hd; cbn; intros H;
    try (repeat split; reflexivity);
    apply Z.leb_gt in Hd; subst d; cbn in *; lia.
Qed.

Lemma tick_inert (now : Z) (w : Page) :
  inert (state w) -> inert (state (tick now w)).
Proof.
  intros [Hh Hs]. unfold tick. destruct (paused (state w)); [split; assumption|].
  cbn [state petMessage].
  pose proof (applyNaturalDecay_isSleeping (state w)) as Hsl.
  assert (Hd : health (applyNaturalDecay (state w)) <= 0).
  { pose proof (applyNaturalDecay_awake_health (state w) Hs) as Hle.
    unfold in_range in Hle. lia. }
  set (d := applyNaturalDecay (state w)) in *.
  assert (Hw : isSleeping (set_lastTickAt now d) = false)
    by (cbn; congruence).
  rewrite Hw. cbn [andb].
  assert (Hz : (health (state (mkPage (set_lastTickAt now d) (petMessage w)))
                <=? 0) = true) by (apply Z.leb_le; exact Hd).
  rewrite Hz. split; reflexivity.
Qed.

Lemma step_inert (e : Event) (w : Page) :
  is_reset e = false -> inert (state w) -> inert (state (step e w)).
Proof.
  intros He [Hh Hs].
  assert (Hz : (health (state w) <=? 0) = true) by (apply Z.leb_le; lia).
  destruct e; cbn [step]; try discriminate.
  - apply tick_inert. split; assumption.
  - unfold feed. rewrite Hz. split; assumption.
  - unfold play. rewrite Hz. split; assumption.
  - unfold toggleSleep. rewrite Hz. split; assumption.
  - unfold heal. rewrite Hz. split; assumption.
  - split; assumption.
Qed.

Lemma run_inert (evs : list Event) (w : Page) :
  forallb (fun e => negb (is_reset e)) evs = true ->
  inert (state w) -> inert (state (run evs w)).
Proof.
  revert w. induction evs as [|e evs IH]; intros w Hevs Hw; [assumption|].
  cbn in Hevs. apply andb_true_iff in Hevs as [He Hevs].
  cbn [run]. apply IH; [assumption|].
  apply step_inert; [|assumption].
  destruct (is_reset e); [discriminate | reflexivity].
Qed.

(** C4. The terminal condition latches.  When a tick that applies decay
    leaves health <= 0, health is 0, the page is paused and the pet is awake;
    and after any further sequence of ticks, feeds, plays, sleep toggles,
    heals and pause toggles (no reset) health is still 0 and the pet still
    awake. *)
Theorem terminal_condition_latches (now : Z) (w : Page) (evs : list Event) :
  paused (state w) = false ->
  health (state (tick now w)) <= 0 ->
  forallb (fun e => negb (is_reset e)) evs = true ->
  health (state (tick now w)) = 0
  /\ paused (state (tick now w)) = true
  /\ isSleeping (state (tick now w)) = false
  /\ health (state (run evs (tick now w))) = 0
  /\ isSleeping (state (run evs (tick now w))) = false.
Proof.
  intros Hp Hh Hevs.
  destruct (tick_terminal now w Hp Hh) as (H0 & Hpa & Hsl).
  split; [assumption|]. split; [assumption|]. split; [assumption|].
  apply (run_inert evs (tick now w) Hevs). split; assumption.
Qed.

Lemma terminal_condition_latches_witness :
  health (state (tick 10 (mkPage nearly_dead None))) = 0
  /\ paused (state (tick 10 (mkPage nearly_dead None))) = true
  /\ isSleeping (state (tick 10 (mkPage nearly_dead None))) = false
  /\ health (state (run after_the_terminal_tick
                        (tick 10 (mkPage nearly_dead None)))) = 0
  /\ isSleeping (state (run after_the_terminal_tick
                            (tick 10 (mkPage nearly_dead None)))) = false.
Proof.
  apply (terminal_condition_latches 10 (mkPage nearly_dead None)
           after_the_terminal_tick);
    [reflexivity | vm_compute; discriminate | reflexivity].
Defined.

(** The same latch for a page that is already inert, whether or not its
    timer is paused: no sequence of ticks and actions other than reset moves
    health off 0. *)
Lemma inert_stays_inert (w : Page) (evs : list Event) :
  inert (state w) ->
  forallb (fun e => negb (is_reset e)) evs = true ->
  health (state (run evs w)) = 0.
Proof. intros Hw Hevs. apply (run_inert evs w Hevs Hw). Qed.

(** Reset is the way out. *)
Lemma resetAll_health (tc tl : Z) (w : Page) :
  health (state (resetAll tc tl w)) = 100.
Proof. reflexivity. Qed.

(** ** Catch-up replay *)

Lemma set_lastTickAt_twice (a b : Z) (s : StatVector) :
  set_lastTickAt a (set_lastTickAt b s) = set_lastTickAt a s.
Proof. reflexivity. Qed.

(** The decay step does not read [lastTickAt]. *)
Lemma hunger_penalty_set_lastTickAt (t : Z) (x : StatVector) :
  hunger_penalty (set_lastTickAt t x) = set_lastTickAt t (hunger_penalty x).
Proof. unfold hunger_penalty. cbn. case_leb; reflexivity. Qed.

Lemma energy_penalty_set_lastTickAt (t : Z) (x : StatVector) :
  energy_penalty (set_lastTickAt t x) = set_lastTickAt t (energy_penalty x).
Proof. unfold energy_penalty. cbn. case_leb; reflexivity. Qed.

Lemma clean_penalty_set_lastTickAt (t : Z) (x : StatVector) :
  clean_penalty (set_lastTickAt t x) = set_lastTickAt t (clean_penalty x).
Proof. unfold clean_penalty. cbn. case_leb; reflexivity. Qed.

Lemma applyNaturalDecay_set_lastTickAt (t : Z) (s : StatVector) :
  applyNaturalDecay (set_lastTickAt t s)
  = set_lastTickAt t (applyNaturalDecay s).
Proof.
  unfold applyNaturalDecay. cbn [isSleeping set_lastTickAt].
  destruct (isSleeping s); [reflexivity|].
  change (awake_next (set_lastTickAt t s))
    with (set_lastTickAt t (awake_next s)).
  rewrite hunger_penalty_set_lastTickAt, energy_penalty_set_lastTickAt,
    clean_penalty_set_lastTickAt.
  reflexivity.
Qed.

Lemma repeat_decay_set_lastTickAt (n : nat) (t : Z) (s : StatVector) :
  repeat_decay n (set_lastTickAt t s) = set_lastTickAt t (repeat_decay n s).
Proof.
  revert s. induction n as [|n IH]; intros s; cbn [repeat_decay];
    [reflexivity|].
  rewrite applyNaturalDecay_set_lastTickAt. apply IH.
Qed.

Lemma merge_with_lastTickAt (d : StatVector) (t : Z) (p : Snapshot) :
  merge d (with_lastTickAt (Some t) p) = set_lastTickAt t (merge d p).
Proof. reflexivity. Qed.

Lemma elapsed_minutes_capped (p : Snapshot) (last now : Z) :
  snap_lastTickAt p = Some last -> 3600000 <= now - last ->
  elapsed_minutes p now = 60.
Proof.
  intros Hl He. unfold elapsed_minutes. rewrite Hl. cbn [nullish].
  assert (60 <= (now - last) / 60000)
    by (apply Z.div_le_lower_bound; lia).
  lia.
Qed.

Lemma elapsed_minutes_none (p : Snapshot) (now : Z) :
  now - nullish (snap_lastTickAt p) now < 60000 ->
  elapsed_minutes p now <= 0.
Proof.
  intros He. unfold elapsed_minutes.
  assert ((now - nullish (snap_lastTickAt p) now) / 60000 < 1)
    by (apply Z.div_lt_upper_bound; lia).
  lia.
Qed.

(** Longer than the cap: exactly 60 steps on the merged snapshot. *)
Lemma replay_sixty_steps (p : Snapshot) (last now tc tl : Z) :
  snap_lastTickAt p = Some last -> 3600000 <= now - last ->
  replay p now tc tl
  = set_lastTickAt now (repeat_decay 60 (merge (defaultState tc tl) p)).
Proof.
  intros Hl He. unfold replay.
  rewrite (elapsed_minutes_capped p last now Hl He). reflexivity.
Qed.

(** C5. The replay is capped at 60 steps.  For a snapshot last ticked at
    [last] and any clock reading [now] at least 60 minutes later, the replay
    (a) equals the replay, at the same reading, of the same snapshot stamped
    exactly 60 minutes before it; (b) equals the replay made exactly 60
    minutes after [last], with [lastTickAt] set to this call's own reading;
    (c) is 60 decay steps on the merged snapshot. *)
Theorem replay_capped_at_60 (p : Snapshot) (last now tc tl : Z) :
  snap_lastTickAt p = Some last ->
  3600000 <= now - last ->
  replay p now tc tl
    = replay (with_lastTickAt (Some (now - 3600000)) p) now tc tl
  /\ replay p now tc tl
    = set_lastTickAt now (replay p (last + 3600000) tc tl)
  /\ replay p now tc tl
    = set_lastTickAt now (repeat_decay 60 (merge (defaultState tc tl) p)).
Proof.
  intros Hl He.
  pose proof (replay_sixty_steps p last now tc tl Hl He) as H60.
  split; [|split]; [| |exact H60].
  - rewrite H60.
    rewrite (replay_sixty_steps (with_lastTickAt (Some (now - 3600000)) p)
               (now - 3600000) now tc tl) by (cbn; lia || reflexivity).
    rewrite merge_with_lastTickAt, repeat_decay_set_lastTickAt.
    rewrite set_lastTickAt_twice. reflexivity.
  - rewrite H60.
    rewrite (replay_sixty_steps p last (last + 3600000) tc tl Hl) by lia.
    rewrite set_lastTickAt_twice. reflexivity.
Qed.

Lemma replay_capped_at_60_witness :
  replay (snapshot_of napping) 90000000 7 8
  = set_lastTickAt 90000000
      (replay (snapshot_of napping) (5000 + 3600000) 7 8).
Proof.
  apply (replay_capped_at_60 (snapshot_of napping) 5000 90000000 7 8);
    [reflexivity | lia].
Defined.

(** C6. A replay less than one whole minute after the snapshot's last tick
    runs no decay step: the result is the snapshot merged over the defaults
    with [lastTickAt] set to the clock reading, so each field the snapshot
    has, other than [lastTickAt], comes out as stored, and a complete
    snapshot comes back as the state it was taken from.  [lastTickAt] is the
    clock reading after every replay, whatever the elapsed time. *)
Theorem replay_under_a_minute (p : Snapshot) (now tc tl : Z) :
  now - nullish (snap_lastTickAt p) now < 60000 ->
  replay p now tc tl = set_lastTickAt now (merge (defaultState tc tl) p)
  /\ (forall v, snap_health p = Some v -> health (replay p now tc tl) = v)
  /\ (forall v, snap_hunger p = Some v -> hunger (replay p now tc tl) = v)
  /\ (forall v, snap_energy p = Some v -> energy (replay p now tc tl) = v)
  /\ (forall v, snap_clean p = Some v -> clean (replay p now tc tl) = v)
  /\ (forall v, snap_mood p = Some v -> mood (replay p now tc tl) = v)
  /\ (forall v, snap_createdAt p = Some v ->
        createdAt (replay p now tc tl) = v)
  /\ (forall v, snap_isSleeping p = Some v ->
        isSleeping (replay p now tc tl) = v)
  /\ (forall v, snap_paused p = Some v -> paused (replay p now tc tl) = v)
  /\ (forall s, p = snapshot_of s ->
        replay p now tc tl = set_lastTickAt now s)
  /\ (forall p' now', lastTickAt (replay p' now' tc tl) = now').
Proof.
  intros He.
  assert (H0 : replay p now tc tl
               = set_lastTickAt now (merge (defaultState tc tl) p)).
  { unfold replay. pose proof (elapsed_minutes_none p now He) as Hm.
    replace (Z.to_nat (elapsed_minutes p now)) with O by lia.
    reflexivity. }
  split; [exact H0|]. rewrite H0.
  split_conj; try (intros v Hv; cbn; rewrite Hv; reflexivity).
  intros p' now'. reflexivity.
Qed.

Lemma replay_under_a_minute_witness :
  replay (snapshot_of napping) 64999 7 8 = set_lastTickAt 64999 napping.
Proof.
  destruct (replay_under_a_minute (snapshot_of napping) 64999 7 8)
    as (_ & H); [cbn; lia|].
  apply H. reflexivity.
Defined.

(** A whole minute is where the first step is taken. *)
Example replay_at_one_minute :
  replay (snapshot_of napping) 65000 7 8
  = set_lastTickAt 65000 (applyNaturalDecay napping).
Proof. vm_compute. reflexivity. Qed.

(** ** Loading *)

(** C7. With no stored snapshot (or storage denied, or an empty string
    stored), with a stored string that does not decode, or with one that
    decodes to [null] or to a value that is not structured, [loadState]
    returns [null] and the live state is the fresh default state, field for
    field, before and after the first render. *)
Theorem malformed_snapshot_falls_back
    (JSON_parse : string -> option Json) (store : Storage)
    (now tc tl tc' tl' : Z) :
  (store = StorageDenied
   \/ store = StorageItem None
   \/ exists raw, store = StorageItem (Some raw)
        /\ (raw = ""%string
            \/ JSON_parse raw = None
            \/ exists j, JSON_parse raw = Some j /\ structured j = false)) ->
  loadState JSON_parse store now tc tl = None
  /\ initialState JSON_parse store now tc tl tc' tl' = defaultState tc' tl'
  /\ state (boot JSON_parse store now tc tl tc' tl') = defaultState tc' tl'.
Proof.
  intros H.
  assert (Hl : loadState JSON_parse store now tc tl = None).
  { destruct H as [-> | [-> | (raw & -> & H)]]; try reflexivity.
    cbn [loadState].
    destruct (String.eqb_spec raw ""); [reflexivity|].
    destruct H as [H | [H | (j & H & Hj)]]; [contradiction | |].
    - rewrite H. reflexivity.
    - rewrite H. destruct j; try discriminate; reflexivity. }
  split; [exact Hl|].
  unfold boot, initialState. rewrite Hl. split; reflexivity.
Qed.

Lemma malformed_snapshot_falls_back_witness :
  initialState sample_parse (StorageItem (Some "42")) 100 101 102 103 104
  = defaultState 103 104.
Proof.
  apply (malformed_snapshot_falls_back sample_parse (StorageItem (Some "42"))
           100 101 102 103 104).
  right. right. exists "42"%string. split; [reflexivity|].
  right. right. exists (JNum 42). split; reflexivity.
Defined.

(** A stored object or array is replayed. *)
Lemma loadState_structured (JSON_parse : string -> option Json)
    (raw : string) (j : Json) (now tc tl : Z) :
  raw <> ""%string -> JSON_parse raw = Some j -> structured j = true ->
  loadState JSON_parse (StorageItem (Some raw)) now tc tl
  = Some (replay (fields_of j) now tc tl).
Proof.
  intros Hraw Hp Hj. cbn [loadState].
  destruct (String.eqb_spec raw ""); [contradiction|].
  rewrite Hp. destruct j; try discriminate; reflexivity.
Qed.

(** The shape test looks at the kind of value only: a stored object is
    merged as it is, also with a vital outside the range. *)
Example structured_snapshot_is_applied_as_stored :
  health (replay tampered 0 0 0) = 500
  /\ hunger (replay tampered 0 0 0) = 0.
Proof. split; reflexivity. Qed.

(** * Further properties of the code *)

(** ** [clamp] *)

(** With bounds in order, [clamp] lands inside them, and it returns its
    argument exactly when the argument is inside already. *)
Theorem clamp_between (n lo hi : Z) :
  lo <= hi ->
  lo <= clamp n lo hi <= hi
  /\ (clamp n lo hi = n <-> lo <= n <= hi).
Proof. unfold clamp. lia. Qed.

Lemma clamp_between_witness :
  0 <= clamp 130 0 100 <= 100 /\ (clamp 130 0 100 = 130 <-> 0 <= 130 <= 100).
Proof. apply (clamp_between 130 0 100). lia. Defined.

(** ** Direction of the decay *)

(** Asleep, a step never lowers health, energy or hunger and never raises
    cleanliness; below the cap health gains exactly 1. *)
Theorem sleeping_decay_direction (s : StatVector) :
  isSleeping s = true -> vitals_in_range s ->
  health s <= health (applyNaturalDecay s)
  /\ energy s <= energy (applyNaturalDecay s)
  /\ hunger s <= hunger (applyNaturalDecay s)
  /\ clean (applyNaturalDecay s) <= clean s
  /\ (health s < 100 -> health (applyNaturalDecay s) = health s + 1).
Proof.
  intros Hs (Hh & Hu & He & Hc). unfold in_range in *.
  unfold applyNaturalDecay. rewrite Hs. cbn -[clamp]. unfold clamp. lia.
Qed.

Lemma sleeping_decay_direction_witness :
  health napping <= health (applyNaturalDecay napping)
  /\ energy napping <= energy (applyNaturalDecay napping)
  /\ hunger napping <= hunger (applyNaturalDecay napping)
  /\ clean (applyNaturalDecay napping) <= clean napping
  /\ (health napping < 100 ->
      health (applyNaturalDecay napping) = health napping + 1).
Proof.
  apply (sleeping_decay_direction napping); [reflexivity|].
  unfold vitals_in_range, in_range. cbn. lia.
Defined.

(** Awake, a step never raises health, energy or cleanliness and never
    lowers hunger. *)
Theorem awake_decay_direction (s : StatVector) :
  isSleeping s = false -> vitals_in_range s ->
  health (applyNaturalDecay s) <= health s
  /\ energy (applyNaturalDecay s) <= energy s
  /\ clean (applyNaturalDecay s) <= clean s
  /\ hunger s <= hunger (applyNaturalDecay s).
Proof.
  intros Hs (Hh & Hu & He & Hc).
  split; [apply applyNaturalDecay_awake_health; assumption|].
  destruct (applyNaturalDecay_others s) as (Eu & Ee & Ec).
  rewrite Eu, Ee, Ec, Hs. unfold in_range, clamp in *. lia.
Qed.

Lemma awake_decay_direction_witness :
  health (applyNaturalDecay starving) <= health starving
  /\ energy (applyNaturalDecay starving) <= energy starving
  /\ clean (applyNaturalDecay starving) <= clean starving
  /\ hunger starving <= hunger (applyNaturalDecay starving).
Proof.
  apply (awake_decay_direction starving); [reflexivity|].
  unfold vitals_in_range, in_range. cbn. lia.
Defined.

(** ** An awake pet left alone *)

Lemma repeat_decay_add (n m : nat) (s : StatVector) :
  repeat_decay (n + m) s = repeat_decay m (repeat_decay n s).
Proof.
  revert s. induction n as [|n IH]; intros s; [reflexivity|].
  cbn [Nat.add repeat_decay]. apply IH.
Qed.

Lemma repeat_decay_isSleeping (n : nat) (s : StatVector) :
  isSleeping (repeat_decay n s) = isSleeping s.
Proof.
  revert s. induction n as [|n IH]; intros s; [reflexivity|].
  cbn [repeat_decay]. rewrite IH. apply applyNaturalDecay_isSleeping.
Qed.

Lemma awake_hunger_lower_bound (k : nat) (s : StatVector) :
  isSleeping s = false -> 0 <= hunger s ->
  Z.min 100 (hunger s + 3 * Z.of_nat k) <= hunger (repeat_decay k s).
Proof.
  revert s. induction k as [|k IH]; intros s Hs H0.
  - cbn [repeat_decay]. lia.
  - cbn [repeat_decay].
    destruct (applyNaturalDecay_others s) as [Hu _]. rewrite Hs in Hu.
    assert (Hs' : isSleeping (applyNaturalDecay s) = false)
      by (rewrite applyNaturalDecay_isSleeping; exact Hs).
    assert (H0' : 0 <= hunger (applyNaturalDecay s))
      by (rewrite Hu; unfold clamp; lia).
    pose proof (IH (applyNaturalDecay s) Hs' H0') as H.
    rewrite Hu in H at 1. unfold clamp in H. lia.
Qed.

(** With hunger at 77 or more the step takes the 3-point penalty. *)
Lemma starving_step (s : StatVector) :
  isSleeping s = false -> 77 <= hunger s -> in_range (health s) ->
  health (applyNaturalDecay s) <= Z.max 0 (health s - 3)
  /\ in_range (health (applyNaturalDecay s))
  /\ 77 <= hunger (applyNaturalDecay s).
Proof.
  intros Hs Hu Hh.
  destruct (applyNaturalDecay_others s) as [Eu _]. rewrite Hs in Eu.
  split; [|split; [|rewrite Eu; unfold clamp; lia]].
  - unfold applyNaturalDecay. rewrite Hs.
    assert (E : health (hunger_penalty (awake_next s))
                = clamp (health s - 3) 0 100).
    { unfold hunger_penalty.
      assert (H80 : (80 <=? hunger (awake_next s)) = true)
        by (apply Z.leb_le; cbn -[clamp]; unfold clamp; lia).
      rewrite H80. reflexivity. }
    assert (R : in_range (health (hunger_penalty (awake_next s))))
      by (rewrite E; apply clamp_in_range).
    destruct (energy_penalty_health _ R) as [R2 L2].
    destruct (clean_penalty_health _ R2) as [_ L3].
    rewrite E in L2. unfold in_range, clamp in *. lia.
  - unfold applyNaturalDecay. rewrite Hs.
    apply (awake_penalties_health (awake_next s)). exact Hh.
Qed.

Lemma starving_steps (k : nat) (s : StatVector) :
  isSleeping s = false -> 77 <= hunger s -> in_range (health s) ->
  health (repeat_decay k s) <= Z.max 0 (health s - 3 * Z.of_nat k)
  /\ in_range (health (repeat_decay k s)).
Proof.
  revert s. induction k as [|k IH]; intros s Hs Hu Hh.
  - cbn [repeat_decay]. unfold in_range in *. split; [lia | exact Hh].
  - cbn [repeat_decay].
    destruct (starving_step s Hs Hu Hh) as (L & R & U).
    assert (Hs' : isSleeping (applyNaturalDecay s) = false)
      by (rewrite applyNaturalDecay_isSleeping; exact Hs).
    destruct (IH (applyNaturalDecay s) Hs' U R) as [L' R'].
    split; [lia | exact R'].
Qed.

Lemma awake_health_zero_after_60 (n : nat) (s : StatVector) :
  isSleeping s = false -> vitals_in_range s -> (60 <= n)%nat ->
  health (repeat_decay n s) = 0.
Proof.
  intros Hs Hr Hn.
  replace n with (26 + (n - 26))%nat by lia. rewrite repeat_decay_add.
  pose proof (repeat_decay_in_range 26 s Hr) as (Hh26 & _).
  pose proof (awake_hunger_lower_bound 26 s Hs) as Hu26.
  destruct Hr as (_ & Hu & _).
  assert (Hs26 : isSleeping (repeat_decay 26 s) = false)
    by (rewrite repeat_decay_isSleeping; exact Hs).
  destruct (starving_steps (n - 26) (repeat_decay 26 s) Hs26) as [L R];
    [unfold in_range in Hu; lia | exact Hh26 |].
  unfold in_range in *. lia.
Qed.

Lemma awake_energy_upper_bound (k : nat) (s : StatVector) :
  isSleeping s = false -> energy s <= 100 ->
  energy (repeat_decay k s) <= Z.max 0 (energy s - 2 * Z.of_nat k).
Proof.
  revert s. induction k as [|k IH]; intros s Hs He.
  - cbn [repeat_decay]. lia.
  - cbn [repeat_decay].
    destruct (applyNaturalDecay_others s) as (_ & Ee & _). rewrite Hs in Ee.
    assert (Hs' : isSleeping (applyNaturalDecay s) = false)
      by (rewrite applyNaturalDecay_isSleeping; exact Hs).
    assert (He' : energy (applyNaturalDecay s) <= 100)
      by (rewrite Ee; unfold clamp; lia).
    pose proof (IH (applyNaturalDecay s) Hs' He') as H.
    rewrite Ee in H. unfold clamp in H. lia.
Qed.

(** An awake pet with vitals in range, left to 60 decay steps or more, ends
    with health 0, hunger 100 and energy 0. *)
Theorem awake_pet_dies_within_60_steps (n : nat) (s : StatVector) :
  isSleeping s = false -> vitals_in_range s -> (60 <= n)%nat ->
  health (repeat_decay n s) = 0
  /\ hunger (repeat_decay n s) = 100
  /\ energy (repeat_decay n s) = 0.
Proof.
  intros Hs Hr Hn.
  pose proof (repeat_decay_in_range n s Hr) as (_ & Hu' & He' & _).
  pose proof (awake_hunger_lower_bound n s Hs) as Lu.
  pose proof (awake_energy_upper_bound n s Hs) as Le.
  destruct Hr as (Hh & Hu & He & Hc).
  split;
    [apply awake_health_zero_after_60;
       [exact Hs | exact (conj Hh (conj Hu (conj He Hc))) | exact Hn]|].
  unfold in_range in *. lia.
Qed.

Lemma awake_pet_dies_within_60_steps_witness :
  health (repeat_decay 60 (fresh_awake "Happy" 0 0 false)) = 0
  /\ hunger (repeat_decay 60 (fresh_awake "Happy" 0 0 false)) = 100
  /\ energy (repeat_decay 60 (fresh_awake "Happy" 0 0 false)) = 0.
Proof.
  apply (awake_pet_dies_within_60_steps 60 (fresh_awake "Happy" 0 0 false));
    [reflexivity | unfold vitals_in_range, in_range; cbn; lia | lia].
Defined.

(** ** More on the catch-up replay *)

Lemma applyNaturalDecay_keeps (s : StatVector) :
  paused (applyNaturalDecay s) = paused s
  /\ createdAt (applyNaturalDecay s) = createdAt s
  /\ mood (applyNaturalDecay s) = mood s.
Proof.
  unfold applyNaturalDecay, clean_penalty, energy_penalty, hunger_penalty.
  destruct (isSleeping s); cbn; [repeat split|].
  case_leb; cbn; repeat split.
Qed.

Lemma repeat_decay_keeps (n : nat) (s : StatVector) :
  paused (repeat_decay n s) = paused s
  /\ createdAt (repeat_decay n s) = createdAt s
  /\ mood (repeat_decay n s) = mood s.
Proof.
  revert s. induction n as [|n IH]; intros s; [repeat split|].
  cbn [repeat_decay]. destruct (IH (applyNaturalDecay s)) as (A & B & C).
  destruct (applyNaturalDecay_keeps s) as (A' & B' & C').
  rewrite A, B, C. repeat split; assumption.
Qed.

(** The replay carries the sleep flag, the pause flag, the creation time and
    the mood label of the merged snapshot through unchanged, however many
    steps it runs: it never wakes the pet and never pauses it. *)
Theorem replay_frame (p : Snapshot) (now tc tl : Z) :
  isSleeping (replay p now tc tl) = isSleeping (merge (defaultState tc tl) p)
  /\ paused (replay p now tc tl) = paused (merge (defaultState tc tl) p)
  /\ createdAt (replay p now tc tl)
     = createdAt (merge (defaultState tc tl) p)
  /\ mood (replay p now tc tl) = mood (merge (defaultState tc tl) p).
Proof.
  unfold replay.
  set (n := Z.to_nat (elapsed_minutes p now)).
  set (m := merge (defaultState tc tl) p).
  destruct (repeat_decay_keeps n m) as (A & B & C).
  pose proof (repeat_decay_isSleeping n m) as D.
  cbn [set_lastTickAt isSleeping paused createdAt mood].
  repeat split; assumption.
Qed.

(** One decay step per whole minute: with [k] whole minutes elapsed,
    [0 <= k <= 60], the replay runs exactly [k] steps. *)
Theorem replay_one_step_per_minute (p : Snapshot) (last now tc tl k : Z) :
  snap_lastTickAt p = Some last ->
  0 <= k <= 60 ->
  k * 60000 <= now - last < (k + 1) * 60000 ->
  replay p now tc tl
  = set_lastTickAt now
      (repeat_decay (Z.to_nat k) (merge (defaultState tc tl) p)).
Proof.
  intros Hl Hk He. unfold replay, elapsed_minutes.
  rewrite Hl. cbn [nullish].
  assert (E : (now - last) / 60000 = k).
  { symmetry. apply (Z.div_unique (now - last) 60000 k (now - last - k * 60000));
      lia. }
  rewrite E. replace (Z.min 60 k) with k by lia. reflexivity.
Qed.

Lemma replay_one_step_per_minute_witness :
  replay (snapshot_of napping) 190000 7 8
  = set_lastTickAt 190000
      (repeat_decay (Z.to_nat 3) (merge (defaultState 7 8) (snapshot_of napping))).
Proof.
  apply (replay_one_step_per_minute (snapshot_of napping) 5000 190000 7 8 3);
    [reflexivity | lia | lia].
Defined.

(** The pause flag plays no part in the replay: changing it in the snapshot
    changes the pause flag of the result and nothing else, so a paused pet
    decays while the page is closed just as an unpaused one does. *)
Lemma applyNaturalDecay_set_paused (b : bool) (s : StatVector) :
  applyNaturalDecay (set_paused b s) = set_paused b (applyNaturalDecay s).
Proof.
  unfold applyNaturalDecay. cbn [isSleeping set_paused].
  destruct (isSleeping s); [reflexivity|].
  change (awake_next (set_paused b s)) with (set_paused b (awake_next s)).
  assert (Hh : forall x, hunger_penalty (set_paused b x)
                         = set_paused b (hunger_penalty x))
    by (intros x; unfold hunger_penalty; cbn; case_leb; reflexivity).
  assert (He : forall x, energy_penalty (set_paused b x)
                         = set_paused b (energy_penalty x))
    by (intros x; unfold energy_penalty; cbn; case_leb; reflexivity).
  assert (Hc : forall x, clean_penalty (set_paused b x)
                         = set_paused b (clean_penalty x))
    by (intros x; unfold clean_penalty; cbn; case_leb; reflexivity).
  rewrite Hh, He, Hc. reflexivity.
Qed.

Lemma repeat_decay_set_paused (n : nat) (b : bool) (s : StatVector) :
  repeat_decay n (set_paused b s) = set_paused b (repeat_decay n s).
Proof.
  revert s. induction n as [|n IH]; intros s; cbn [repeat_decay];
    [reflexivity|].
  rewrite applyNaturalDecay_set_paused. apply IH.
Qed.

Theorem replay_ignores_pause (b : bool) (p : Snapshot) (now tc tl : Z) :
  replay (with_paused (Some b) p) now tc tl
  = set_paused b (replay p now tc tl).
Proof.
  unfold replay.
  change (elapsed_minutes (with_paused (Some b) p) now)
    with (elapsed_minutes p now).
  change (merge (defaultState tc tl) (with_paused (Some b) p))
    with (set_paused b (merge (defaultState tc tl) p)).
  rewrite repeat_decay_set_paused. reflexivity.
Qed.

(** An awake snapshot with vitals in range, reloaded 60 minutes or more
    after its last tick, comes back with health 0; the replay does not run
    the terminal transition, so the pause flag is the stored one. *)
Theorem replay_long_absence_awake (p : Snapshot) (last now tc tl : Z) :
  snapshot_in_range p ->
  isSleeping (merge (defaultState tc tl) p) = false ->
  snap_lastTickAt p = Some last ->
  3600000 <= now - last ->
  health (replay p now tc tl) = 0
  /\ isSleeping (replay p now tc tl) = false
  /\ paused (replay p now tc tl) = paused (merge (defaultState tc tl) p).
Proof.
  intros Hr Hs Hl He.
  rewrite (replay_sixty_steps p last now tc tl Hl He).
  pose proof (awake_health_zero_after_60 60 _ Hs (merge_in_range p tc tl Hr)
                (Nat.le_refl 60)) as H0.
  pose proof (repeat_decay_isSleeping 60 (merge (defaultState tc tl) p)) as H1.
  destruct (repeat_decay_keeps 60 (merge (defaultState tc tl) p)) as (H2 & _).
  revert H0 H1 H2.
  generalize (repeat_decay 60 (merge (defaultState tc tl) p)).
  intros x H0 H1 H2. destruct x. cbn in *.
  split; [exact H0|]. split; [congruence | exact H2].
Qed.

Lemma replay_long_absence_awake_witness :
  health (replay (snapshot_of starving) 3600000 7 8) = 0
  /\ isSleeping (replay (snapshot_of starving) 3600000 7 8) = false
  /\ paused (replay (snapshot_of starving) 3600000 7 8)
     = paused (merge (defaultState 7 8) (snapshot_of starving)).
Proof.
  apply (replay_long_absence_awake (snapshot_of starving) 0 3600000 7 8);
    [ apply snapshot_of_in_range; unfold vitals_in_range, in_range; cbn; lia
    | reflexivity | reflexivity | lia ].
Defined.

(** ** More on loading *)

(** A stored array, or an object with none of the fields, loads as the
    default state stamped with the clock reading of [loadState]. *)
Theorem loadState_without_fields
    (JSON_parse : string -> option Json) (raw : string) (j : Json)
    (now tc tl : Z) :
  raw <> ""%string ->
  JSON_parse raw = Some j ->
  j = JArray \/ j = JObject empty_snapshot ->
  loadState JSON_parse (StorageItem (Some raw)) now tc tl
  = Some (defaultState tc now).
Proof.
  intros Hraw Hp Hj. cbn [loadState].
  destruct (String.eqb_spec raw ""); [contradiction|].
  rewrite Hp.
  assert (E : replay empty_snapshot now tc tl = defaultState tc now).
  { unfold replay, elapsed_minutes. cbn [nullish snap_lastTickAt empty_snapshot].
    rewrite Z.sub_diag. reflexivity. }
  destruct Hj as [-> | ->]; cbn [typeof is_null fields_of];
    change (negb ("object" =? "object")%string || false) with false;
    cbv iota; rewrite E; reflexivity.
Qed.

Lemma loadState_without_fields_witness :
  loadState (parse_as napping) (StorageItem (Some "[]")) 100 7 8
  = Some (defaultState 7 100).
Proof.
  apply (loadState_without_fields (parse_as napping) "[]" JArray 100 7 8);
    [discriminate | reflexivity | left; reflexivity].
Defined.

(** [loadState] returns [null] in the cases of a missing, undecodable or
    unstructured item and in no other: every stored object or array is
    accepted. *)
Theorem loadState_null_iff
    (JSON_parse : string -> option Json) (store : Storage) (now tc tl : Z) :
  loadState JSON_parse store now tc tl = None
  <-> (store = StorageDenied
       \/ store = StorageItem None
       \/ exists raw, store = StorageItem (Some raw)
            /\ (raw = ""%string
                \/ JSON_parse raw = None
                \/ exists j, JSON_parse raw = Some j
                             /\ structured j = false)).
Proof.
  split.
  - destruct store as [|[raw|]]; [tauto | | tauto].
    intros H. right. right. exists raw. split; [reflexivity|].
    cbn [loadState] in H.
    destruct (String.eqb_spec raw ""); [tauto|].
    destruct (JSON_parse raw) as [j|]; [|tauto].
    right. right. exists j. split; [reflexivity|].
    destruct j; try reflexivity; discriminate.
  - intros [-> | [-> | (raw & -> & H)]]; try reflexivity.
    cbn [loadState].
    destruct (String.eqb_spec raw ""); [reflexivity|].
    destruct H as [H | [H | (j & H & Hj)]]; [contradiction | |].
    + rewrite H. reflexivity.
    + rewrite H. destruct j; try discriminate; reflexivity.
Qed.

(** Save, then load less than a minute later: when the write goes through
    and the parser reads back what the serializer wrote, the loaded state is
    the saved one with [lastTickAt] moved to the clock reading. *)
Theorem save_then_load
    (JSON_stringify : StatVector -> string)
    (JSON_parse : string -> option Json)
    (s : StatVector) (old : option string) (now tc tl : Z) :
  JSON_stringify s <> ""%string ->
  JSON_parse (JSON_stringify s) = Some (JObject (snapshot_of s)) ->
  now - lastTickAt s < 60000 ->
  loadState JSON_parse
    (saveState JSON_stringify true s (StorageItem old)) now tc tl
  = Some (set_lastTickAt now s).
Proof.
  intros Hne Hrt He. cbn [saveState loadState].
  destruct (String.eqb_spec (JSON_stringify s) ""); [contradiction|].
  rewrite Hrt. cbn [typeof is_null fields_of negb orb String.eqb].
  change (negb ("object" =? "object")%string || false) with false.
  cbv iota. f_equal.
  unfold replay.
  assert (Hm : elapsed_minutes (snapshot_of s) now <= 0)
    by (apply elapsed_minutes_none; exact He).
  replace (Z.to_nat (elapsed_minutes (snapshot_of s) now)) with O by lia.
  destruct s; reflexivity.
Qed.

Lemma save_then_load_witness :
  loadState (parse_as napping)
    (saveState sample_stringify true napping (StorageItem None)) 6000 7 8
  = Some (set_lastTickAt 6000 napping).
Proof.
  apply (save_then_load sample_stringify (parse_as napping) napping None
           6000 7 8); [discriminate | reflexivity | cbn; lia].
Defined.

(** ** The page under events *)

Lemma computeMoodAndCondition_set_mood (m : string) (s : StatVector) :
  computeMoodAndCondition (set_mood m s) = computeMoodAndCondition s.
Proof. reflexivity. Qed.

Lemma render_rendered (w : Page) : rendered (render w).
Proof. unfold rendered, render. cbn [state]. reflexivity. Qed.

Lemma tick_rendered (now : Z) (w : Page) :
  rendered w -> rendered (tick now w).
Proof.
  intros H. unfold tick. destruct (paused (state w)); [exact H|].
  apply render_rendered.
Qed.

Lemma step_rendered (e : Event) (w : Page) :
  rendered w -> rendered (step e w).
Proof.
  intros H. destruct e; cbn [step].
  - apply tick_rendered, H.
  - unfold feed. destruct (health (state w) <=? 0);
      [exact H | apply render_rendered].
  - unfold play. destruct (health (state w) <=? 0); [exact H|].
    destruct (energy (state w) <=? 10); [exact H | apply render_rendered].
  - unfold toggleSleep. destruct (health (state w) <=? 0);
      [exact H | apply render_rendered].
  - unfold heal. destruct (health (state w) <=? 0); [exact H|].
    destruct (energy (state w) <=? 8); [exact H | apply render_rendered].
  - apply render_rendered.
  - apply render_rendered.
Qed.

Lemma run_rendered (evs : list Event) (w : Page) :
  rendered w -> rendered (run evs w).
Proof.
  revert w. induction evs as [|e evs IH]; intros w H; [exact H|].
  cbn [run]. apply IH, step_rendered, H.
Qed.

(** From boot on, after any sequence of ticks and clicks, the stored mood
    label is the classification of the current vitals: every path that
    changes the state ends in [render()], and the paths that skip it change
    nothing. *)
Theorem mood_is_always_the_classification
    (JSON_parse : string -> option Json) (store : Storage)
    (now tc tl tc' tl' : Z) (evs : list Event) :
  rendered (run evs (boot JSON_parse store now tc tl tc' tl')).
Proof. apply run_rendered. unfold boot. apply render_rendered. Qed.

(** [render()] twice is [render()] once. *)
Lemma render_idempotent (w : Page) : render (render w) = render w.
Proof. reflexivity. Qed.

Lemma step_createdAt (e : Event) (w : Page) :
  is_reset e = false -> createdAt (state (step e w)) = createdAt (state w).
Proof.
  intros He. destruct e; cbn [step]; try discriminate.
  - unfold tick. destruct (paused (state w)); [reflexivity|].
    cbn [state petMessage].
    destruct (applyNaturalDecay_keeps (state w)) as (_ & Hc & _).
    set (d := applyNaturalDecay (state w)) in *.
    destruct (isSleeping (set_lastTickAt now d)
              && (98 <=? energy (set_lastTickAt now d)));
      cbn [state setMessage petMessage set_isSleeping set_lastTickAt health];
      destruct (health d <=? 0); cbn; exact Hc.
  - unfold feed. destruct (health (state w) <=? 0); reflexivity.
  - unfold play. destruct (health (state w) <=? 0); [reflexivity|].
    destruct (energy (state w) <=? 10); reflexivity.
  - unfold toggleSleep. destruct (health (state w) <=? 0); reflexivity.
  - unfold heal. destruct (health (state w) <=? 0); [reflexivity|].
    destruct (energy (state w) <=? 8); reflexivity.
  - reflexivity.
Qed.

(** The creation time is written by a reset only: no tick and no other
    action changes it, so the age shown keeps counting from the same
    instant. *)
Theorem createdAt_changes_only_on_reset (evs : list Event) (w : Page) :
  forallb (fun e => negb (is_reset e)) evs = true ->
  createdAt (state (run evs w)) = createdAt (state w).
Proof.
  revert w. induction evs as [|e evs IH]; intros w H; [reflexivity|].
  cbn in H. apply andb_true_iff in H as [He H].
  cbn [run]. rewrite (IH _ H). apply step_createdAt.
  destruct (is_reset e); [discriminate | reflexivity].
Qed.

Lemma createdAt_changes_only_on_reset_witness :
  createdAt (state (run after_the_terminal_tick (mkPage napping None)))
  = createdAt (state (mkPage napping None)).
Proof.
  apply (createdAt_changes_only_on_reset after_the_terminal_tick
           (mkPage napping None)).
  reflexivity.
Defined.

(** No click kills: with health above 0 before feed, play, heal or either
    toggle, health is above 0 after it.  Only the decay can bring health
    to 0. *)
Theorem actions_never_kill (w : Page) :
  0 < health (state w) ->
  0 < health (state (feed w))
  /\ 0 < health (state (play w))
  /\ 0 < health (state (heal w))
  /\ 0 < health (state (toggleSleep w))
  /\ 0 < health (state (togglePause w)).
Proof.
  intros H. unfold feed, play, heal, toggleSleep, togglePause.
  assert (Hz : (health (state w) <=? 0) = false) by (apply Z.leb_gt; exact H).
  rewrite Hz.
  destruct (energy (state w) <=? 10); destruct (energy (state w) <=? 8);
    cbn -[clamp]; unfold clamp; lia.
Qed.

Lemma actions_never_kill_witness :
  0 < health (state (feed (mkPage nearly_dead None)))
  /\ 0 < health (state (play (mkPage nearly_dead None)))
  /\ 0 < health (state (heal (mkPage nearly_dead None)))
  /\ 0 < health (state (toggleSleep (mkPage nearly_dead None)))
  /\ 0 < health (state (togglePause (mkPage nearly_dead None))).
Proof.
  apply (actions_never_kill (mkPage nearly_dead None)). cbn. lia.
Defined.

(** After a tick that applies decay, a pet that is still asleep has energy
    below 98 and health above 0: the auto-wake and the terminal transition
    have both been checked. *)
Theorem tick_leaves_asleep_only_if_tired (now : Z) (w : Page) :
  paused (state w) = false ->
  isSleeping (state (tick now w)) = true ->
  energy (state (tick now w)) < 98 /\ 0 < health (state (tick now w)).
Proof.
  intros Hp. unfold tick. rewrite Hp. cbn [state petMessage].
  destruct (applyNaturalDecay (state w)) as [h hu e c m ca lt sl p].
  cbn -[Z.leb].
  destruct sl; cbn -[Z.leb];
    [destruct (Z.leb_spec 98 e); cbn -[Z.leb]|];
    destruct (Z.leb_spec h 0); cbn; intros Hsl; try discriminate; lia.
Qed.

Lemma tick_leaves_asleep_only_if_tired_witness :
  energy (state (tick 10 (mkPage napping None))) < 98
  /\ 0 < health (state (tick 10 (mkPage napping None))).
Proof.
  apply (tick_leaves_asleep_only_if_tired 10 (mkPage napping None));
    reflexivity.
Defined.

(** For vitals in range, a tick that applies decay changes the four vitals
    exactly as one decay step does (the terminal transition's [health = 0]
    changes no value) and stamps [lastTickAt] with its clock reading. *)
Theorem tick_is_one_decay_step (now : Z) (w : Page) :
  paused (state w) = false -> vitals_in_range (state w) ->
  health (state (tick now w)) = health (applyNaturalDecay (state w))
  /\ hunger (state (tick now w)) = hunger (applyNaturalDecay (state w))
  /\ energy (state (tick now w)) = energy (applyNaturalDecay (state w))
  /\ clean (state (tick now w)) = clean (applyNaturalDecay (state w))
  /\ lastTickAt (state (tick now w)) = now.
Proof.
  intros Hp Hr.
  pose proof (applyNaturalDecay_in_range (state w) (proj1 Hr)) as (Hh & _).
  unfold tick. rewrite Hp. cbn [state petMessage].
  set (d := applyNaturalDecay (state w)) in *.
  destruct (isSleeping (set_lastTickAt now d)
            && (98 <=? energy (set_lastTickAt now d)));
    cbn [state setMessage petMessage set_isSleeping set_lastTickAt health];
    destruct (Z.leb_spec (health d) 0); cbn;
    unfold in_range in Hh; repeat split; try reflexivity; lia.
Qed.

Lemma tick_is_one_decay_step_witness :
  health (state (tick 10 (mkPage nearly_dead None)))
    = health (applyNaturalDecay nearly_dead)
  /\ hunger (state (tick 10 (mkPage nearly_dead None)))
    = hunger (applyNaturalDecay nearly_dead)
  /\ energy (state (tick 10 (mkPage nearly_dead None)))
    = energy (applyNaturalDecay nearly_dead)
  /\ clean (state (tick 10 (mkPage nearly_dead None)))
    = clean (applyNaturalDecay nearly_dead)
  /\ lastTickAt (state (tick 10 (mkPage nearly_dead None))) = 10.
Proof.
  apply (tick_is_one_decay_step 10 (mkPage nearly_dead None));
    [reflexivity | unfold vitals_in_range, in_range; cbn; lia].
Defined.

(** While the page is paused the timer changes nothing, however often it
    fires: not the vitals, not [lastTickAt], not the message. *)
Theorem paused_page_ignores_ticks (evs : list Event) (w : Page) :
  paused (state w) = true -> forallb is_tick evs = true ->
  run evs w = w.
Proof.
  intros Hp. induction evs as [|e evs IH]; intros H; [reflexivity|].
  cbn in H. apply andb_true_iff in H as [He H].
  destruct e; try discriminate. cbn [run step].
  unfold tick. rewrite Hp. apply IH, H.
Qed.

Lemma paused_page_ignores_ticks_witness :
  run [Tick 5; Tick 10; Tick 15] dead_page = dead_page.
Proof.
  apply (paused_page_ignores_ticks [Tick 5; Tick 10; Tick 15] dead_page);
    reflexivity.
Defined.

(** The sleep toggle undoes itself: on a living pet two toggles in a row
    leave the state as a plain [render()] would. *)
Theorem toggleSleep_twice (w : Page) :
  0 < health (state w) ->
  state (toggleSleep (toggleSleep w)) = state (render w).
Proof.
  intros H. unfold toggleSleep.
  assert (Hz : (health (state w) <=? 0) = false) by (apply Z.leb_gt; exact H).
  rewrite Hz. cbn [state render setMessage set_isSleeping set_mood health].
  rewrite Hz. cbn. rewrite negb_involutive.
  destruct (state w); reflexivity.
Qed.

Lemma toggleSleep_twice_witness :
  state (toggleSleep (toggleSleep (mkPage napping None)))
  = state (render (mkPage napping None)).
Proof. apply (toggleSleep_twice (mkPage napping None)). cbn. lia. Defined.

(** So does the pause toggle, on any page. *)
Theorem togglePause_twice (w : Page) :
  state (togglePause (togglePause w)) = state (render w).
Proof.
  unfold togglePause. cbn. rewrite negb_involutive.
  destruct (state w); reflexivity.
Qed.

(** A dead pet cannot be kept running: whatever the pause flag, it is set
    after the next tick, also when the pause toggle was clicked just
    before. *)
Theorem dead_pet_is_paused_again (now : Z) (w : Page) :
  inert (state w) ->
  paused (state (tick now w)) = true
  /\ paused (state (tick now (togglePause w))) = true.
Proof.
  assert (G : forall w', inert (state w') -> paused (state (tick now w')) = true).
  { intros w' [Hh Hs]. unfold tick.
    destruct (paused (state w')) eqn:Hp; [exact Hp|].
    cbn [state petMessage].
    pose proof (applyNaturalDecay_isSleeping (state w')) as Hsl.
    assert (Hd : health (applyNaturalDecay (state w')) <= 0).
    { pose proof (applyNaturalDecay_awake_health (state w') Hs) as Hle.
      unfold in_range in Hle. lia. }
    set (d := applyNaturalDecay (state w')) in *.
    assert (Hw : isSleeping (set_lastTickAt now d) = false)
      by (cbn; congruence).
    rewrite Hw. cbn [andb].
    assert (Hz : (health (state (mkPage (set_lastTickAt now d) (petMessage w')))
                  <=? 0) = true) by (apply Z.leb_le; exact Hd).
    rewrite Hz. reflexivity. }
  intros Hw. split; [apply G, Hw|].
  apply G. destruct Hw as [Hh Hs]. split; assumption.
Qed.

Lemma dead_pet_is_paused_again_witness :
  paused (state (tick 10 dead_page)) = true
  /\ paused (state (tick 10 (togglePause dead_page))) = true.
Proof.
  apply (dead_pet_is_paused_again 10 dead_page). split; reflexivity.
Defined.

(** ** Playing until tired *)

Lemma run_app (a b : list Event) (w : Page) :
  run (a ++ b) w = run b (run a w).
Proof.
  revert w. induction a as [|e a IH]; intros w; [reflexivity|].
  cbn [app run]. apply IH.
Qed.

(** The guard of [play] is closed: it holds, so [play] leaves the state
    alone, so it holds again. *)
Lemma play_refused (n : nat) (w : Page) :
  health (state w) <= 0 \/ energy (state w) <= 10 ->
  state (run (repeat Play n) w) = state w.
Proof.
  revert w. induction n as [|n IH]; intros w H; [reflexivity|].
  cbn [repeat run step].
  assert (E : state (play w) = state w).
  { unfold play. destruct (Z.leb_spec (health (state w)) 0); [reflexivity|].
    destruct (Z.leb_spec (energy (state w)) 10); [reflexivity | lia]. }
  rewrite IH; [exact E | rewrite E; exact H].
Qed.

Lemma play_costs_energy (w : Page) :
  0 < health (state w) -> in_range (energy (state w)) ->
  0 < health (state (play w))
  /\ in_range (energy (state (play w)))
  /\ energy (state (play w)) <= Z.max 10 (energy (state w) - 18).
Proof.
  intros Hh He. unfold play, in_range in *.
  assert (Hz : (health (state w) <=? 0) = false) by (apply Z.leb_gt; exact Hh).
  rewrite Hz.
  destruct (Z.leb_spec (energy (state w)) 10); cbn -[clamp];
    unfold clamp; lia.
Qed.

Lemma plays_cost_energy (n : nat) (w : Page) :
  0 < health (state w) -> in_range (energy (state w)) ->
  energy (state (run (repeat Play n) w))
  <= Z.max 10 (energy (state w) - 18 * Z.of_nat n).
Proof.
  revert w. induction n as [|n IH]; intros w Hh He.
  - cbn [repeat run]. lia.
  - cbn [repeat run step].
    destruct (play_costs_energy w Hh He) as (Hh' & He' & L).
    pose proof (IH (play w) Hh' He') as H. lia.
Qed.

(** [play] acts at most five times in a row: from vitals in range, every
    click after the fifth finds the pet too tired (or dead) and leaves the
    state as it is. *)
Theorem play_acts_at_most_five_times (n : nat) (w : Page) :
  vitals_in_range (state w) -> (5 <= n)%nat ->
  state (run (repeat Play n) w) = state (run (repeat Play 5) w).
Proof.
  intros (Hh & _ & He & _) Hn.
  replace n with (5 + (n - 5))%nat by lia.
  rewrite repeat_app, run_app. apply play_refused.
  destruct (Z.leb_spec (health (state w)) 0) as [Hd | Ha].
  - left. rewrite (play_refused 5 w (or_introl Hd)). exact Hd.
  - right. pose proof (plays_cost_energy 5 w Ha He) as H.
    unfold in_range in He. lia.
Qed.

Lemma play_acts_at_most_five_times_witness :
  state (run (repeat Play 9) (mkPage (fresh_awake "Happy" 0 0 false) None))
  = state (run (repeat Play 5) (mkPage (fresh_awake "Happy" 0 0 false) None)).
Proof.
  apply (play_acts_at_most_five_times 9
           (mkPage (fresh_awake "Happy" 0 0 false) None));
    [unfold vitals_in_range, in_range; cbn; lia | lia].
Defined.

(** ** The look of the pet *)

Lemma existsb_eqb_In (c : string) (l : list string) :
  existsb (String.eqb c) l = true <-> In c l.
Proof.
  rewrite existsb_exists. split.
  - intros (x & Hx & E). apply String.eqb_eq in E. subst. exact Hx.
  - intros H. exists c. split; [exact H | apply String.eqb_refl].
Qed.

Lemma classList_add_In (c n : string) (l : list string) :
  In c (classList_add n l) <-> In c l \/ c = n.
Proof.
  unfold classList_add. destruct (existsb (String.eqb n) l) eqn:E.
  - apply existsb_eqb_In in E. split; [tauto|].
    intros [H | ->]; assumption.
  - rewrite in_app_iff. cbn. intuition congruence.
Qed.

Lemma classList_remove_In (c : string) (names l : list string) :
  In c (classList_remove names l) <-> In c l /\ ~ In c names.
Proof.
  unfold classList_remove. rewrite filter_In, negb_true_iff.
  pose proof (existsb_eqb_In c names) as E.
  destruct (existsb (String.eqb c) names).
  - split; [intros [_ H]; discriminate
           | intros [_ H]; exfalso; apply H, E; reflexivity].
  - split; intros [H _]; (split; [exact H|]); [|reflexivity].
    intros Hin. apply E in Hin. discriminate.
Qed.

(** After [updatePetLook(mood)] the element has the class of the mood and no
    other of the four mood classes, and every other class it had (the
    animation classes, say) is still there; a mood without a class, such as
    "Okay", leaves it with no mood class at all. *)
Theorem updatePetLook_classes (m c : string) (classes : list string) :
  In c (updatePetLook m classes)
  <-> (In c classes /\ ~ In c mood_classes)
      \/ (m = "Happy"%string /\ c = "happy"%string)
      \/ (m = "Hungry"%string /\ c = "hungry"%string)
      \/ (m = "Sleepy"%string /\ c = "sleepy"%string)
      \/ (m = "Sick"%string /\ c = "sick"%string).
Proof.
  unfold updatePetLook.
  destruct (String.eqb_spec m "Happy") as [-> | N1];
    [rewrite classList_add_In, classList_remove_In; intuition congruence|].
  destruct (String.eqb_spec m "Hungry") as [-> | N2];
    [rewrite classList_add_In, classList_remove_In; intuition congruence|].
  destruct (String.eqb_spec m "Sleepy") as [-> | N3];
    [rewrite classList_add_In, classList_remove_In; intuition congruence|].
  destruct (String.eqb_spec m "Sick") as [-> | N4];
    [rewrite classList_add_In, classList_remove_In; intuition congruence|].
  rewrite classList_remove_In. intuition congruence.
Qed.

(** ** The classifier, read backwards *)

(** The pet is reported happy exactly when it is awake with health >= 70,
    hunger <= 40, energy >= 40 and cleanliness above 25: the cleanliness
    bound comes from the rule before, not from the happy rule itself. *)
Theorem happy_iff (s : StatVector) :
  computeMoodAndCondition s = ("Happy", "Great")
  <-> isSleeping s = false /\ 70 <= health s /\ hunger s <= 40
      /\ 40 <= energy s /\ 25 < clean s.
Proof.
  unfold computeMoodAndCondition.
  destruct (isSleeping s); [split; [discriminate | intros [? _]; discriminate]|].
  case_leb; cbn;
    (split;
     [ intros Hx; try discriminate; repeat split; first [reflexivity | lia]
     | intros (_ & ? & ? & ? & ?); try reflexivity; lia ]).
Qed.

(** ** The age line *)

(** The age shown is never negative, is 0 until a whole minute has passed
    since creation (also when the clock reads earlier than the creation
    time), counts whole minutes after that, and does not go down as the
    clock advances. *)
Theorem ageMinutes_counts_whole_minutes (now : Z) (s : StatVector) :
  0 <= ageMinutes now s
  /\ (now - createdAt s < 60000 -> ageMinutes now s = 0)
  /\ (createdAt s <= now ->
      ageMinutes now s * 60000 <= now - createdAt s
      < (ageMinutes now s + 1) * 60000)
  /\ (forall later, now <= later -> ageMinutes now s <= ageMinutes later s).
Proof.
  unfold ageMinutes.
  pose proof (Z.mul_div_le (now - createdAt s) 60000 ltac:(lia)) as Hle.
  pose proof (Z.mul_succ_div_gt (now - createdAt s) 60000 ltac:(lia)) as Hgt.
  split; [lia|]. split; [|split].
  - intros H.
    assert ((now - createdAt s) / 60000 < 1)
      by (apply Z.div_lt_upper_bound; lia).
    lia.
  - intros H.
    assert (0 <= (now - createdAt s) / 60000) by (apply Z.div_pos; lia).
    lia.
  - intros later H.
    assert ((now - createdAt s) / 60000 <= (later - createdAt s) / 60000)
      by (apply Z.div_le_mono; lia).
    lia.
Qed.

Lemma ageMinutes_counts_whole_minutes_witness :
  ageMinutes 130999 napping * 60000 <= 130999 - createdAt napping
  < (ageMinutes 130999 napping + 1) * 60000.
Proof.
  destruct (ageMinutes_counts_whole_minutes 130999 napping) as (_ & _ & H & _).
  apply H. cbn. lia.
Defined.

Example updatePetLook_samples :
  updatePetLook "Okay" bare_classes = ["pet"; "anim-shake"]
  /\ updatePetLook "Happy" bare_classes = ["pet"; "anim-shake"; "happy"].
Proof. split; reflexivity. Qed.

(** ** Sleeping through an absence *)

Lemma sleeping_step_gains (s : StatVector) :
  isSleeping s = true -> vitals_in_range s ->
  health s <= health (applyNaturalDecay s)
  /\ energy s <= energy (applyNaturalDecay s).
Proof.
  intros Hs (Hh & _ & He & _). unfold in_range in *.
  unfold applyNaturalDecay. rewrite Hs. cbn -[clamp]. unfold clamp. lia.
Qed.

Lemma sleeping_steps_gain (n : nat) (s : StatVector) :
  isSleeping s = true -> vitals_in_range s ->
  health s <= health (repeat_decay n s)
  /\ energy s <= energy (repeat_decay n s).
Proof.
  revert s. induction n as [|n IH]; intros s Hs Hr; [cbn; lia|].
  cbn [repeat_decay].
  destruct (sleeping_step_gains s Hs Hr) as [A B].
  assert (Hs' : isSleeping (applyNaturalDecay s) = true)
    by (rewrite applyNaturalDecay_isSleeping; exact Hs).
  destruct (IH (applyNaturalDecay s) Hs'
              (applyNaturalDecay_in_range s (proj1 Hr))) as [A' B'].
  lia.
Qed.

(** A pet stored asleep with vitals in range loses neither health nor
    energy to the replay, however long the absence. *)
Theorem sleeping_replay_never_hurts (p : Snapshot) (now tc tl : Z) :
  snapshot_in_range p ->
  isSleeping (merge (defaultState tc tl) p) = true ->
  health (merge (defaultState tc tl) p) <= health (replay p now tc tl)
  /\ energy (merge (defaultState tc tl) p) <= energy (replay p now tc tl).
Proof.
  intros Hr Hs. unfold replay.
  pose proof (sleeping_steps_gain (Z.to_nat (elapsed_minutes p now)) _ Hs
                (merge_in_range p tc tl Hr)) as H.
  revert H.
  generalize (repeat_decay (Z.to_nat (elapsed_minutes p now))
                (merge (defaultState tc tl) p)).
  intros x H. destruct x. exact H.
Qed.

Lemma sleeping_replay_never_hurts_witness :
  health (merge (defaultState 7 8) (snapshot_of napping))
    <= health (replay (snapshot_of napping) 90000000 7 8)
  /\ energy (merge (defaultState 7 8) (snapshot_of napping))
    <= energy (replay (snapshot_of napping) 90000000 7 8).
Proof.
  apply (sleeping_replay_never_hurts (snapshot_of napping) 90000000 7 8);
    [ apply snapshot_of_in_range; unfold vitals_in_range, in_range; cbn; lia
    | reflexivity ].
Defined.

(** ** Reset *)



